(** * evalml: the target-distribution data check and the estimator wrappers

    A shallow embedding of

    - [evalml/data_checks/target_distribution_data_check.py]
      ([TargetDistributionDataCheck.validate]) and
    - [evalml/pipelines/components/estimator.py]
      ([Estimator.predict], [Estimator.predict_proba], [Estimator.score]).

    Python values are modelled by the small universe [PyObj]; a pandas
    series of dtype int64 is a [list Z] whose arithmetic wraps around at 64
    bits, a series of dtype float64 is a list of binary64 numbers
    ([PrimFloat.float]).  Calls into third-party libraries (scipy's
    [shapiro], woodwork's type inference, pandas' [mean] and [std], numpy's
    [log], Python's [round] and float formatting, the wrapped scikit-learn
    model) are collaborators: the functions that use them take them as
    parameters, and every call that can raise is threaded through the monad
    [M], which records the calls made and propagates Python exceptions. *)

From Stdlib Require Import ZArith List Bool Floats Lia.
From stdpp Require Import base option list gmap strings pretty.
Import ListNotations.

Local Open Scope string_scope.
Local Open Scope list_scope.
Local Open Scope Z_scope.

(** ** Python values, exceptions and the call monad *)

(** The data a pandas series or a numpy array holds, by dtype. *)
Inductive Column :=
| IntCol (vals : list Z)            (* dtype int64 *)
| FloatCol (vals : list float)      (* dtype float64 *)
| BoolCol (vals : list bool)        (* dtype bool *)
| StrCol (vals : list string).      (* dtype object, holding str *)

(** The Python objects the modelled functions receive and return. *)
Inductive PyObj :=
| PyNone
| PyBool (b : bool)
| PyInt (z : Z)
| PyFloat (f : float)
| PyStr (s : string)
| PySeries (c : Column)
| PyFrame (cols : list (string * Column)).

(** [o is None]. *)
Definition is_None (o : PyObj) : bool :=
  match o with
  | PyNone => true
  | _ => false
  end.

(** A raised exception: its class name and its message. *)
Record PyExc := mkExc { exc_class : string; exc_msg : string }.

(** How a call ends: it returns a value or it raises. *)
Inductive Outcome (A : Type) :=
| Return (a : A)
| Raise (e : PyExc).
Arguments Return {A} a.
Arguments Raise {A} e.

Definition outcome_map {A B : Type} (f : A -> B) (o : Outcome A) : Outcome B :=
  match o with
  | Return a => Return (f a)
  | Raise e => Raise e
  end.

Definition returns {A : Type} (o : Outcome A) : Prop := exists a, o = Return a.

(** [M E A]: a computation that calls collaborators.  It extends the log of
    calls made so far (events of type [E]) and ends in an [Outcome]. *)
Definition M (E A : Type) : Type := list E -> Outcome A * list E.

Definition ret {E A : Type} (a : A) : M E A := fun log => (Return a, log).

Definition bind {E A B : Type} (c : M E A) (k : A -> M E B) : M E B :=
  fun log =>
    match c log with
    | (Return a, log') => k a log'
    | (Raise e, log') => (Raise e, log')
    end.

(** A call to a collaborator: the call is recorded, then its outcome (a
    returned value or a raised exception) is the outcome of the step. *)
Definition call {E A : Type} (ev : E) (o : Outcome A) : M E A :=
  fun log => (o, log ++ [ev]).

(** [raise e]: no call is made, the exception propagates. *)
Definition raise {E A : Type} (e : PyExc) : M E A := fun log => (Raise e, log).

(** Running a computation from the empty log. *)
Definition run {E A : Type} (c : M E A) : Outcome A * list E := c [].

(** A computation is _oblivious_ when the calls already made influence
    neither its outcome nor the calls it adds. *)
Definition oblivious {E A : Type} (c : M E A) : Prop :=
  forall log, c log = (fst (c []), log ++ snd (c [])).

Declare Scope py_scope.
Delimit Scope py_scope with py.
Notation "x <- c ;; k" := (bind c (fun x => k))
  (at level 100, c at next level, right associativity) : py_scope.
Notation "c ;;; k" := (bind c (fun _ => k))
  (at level 100, right associativity) : py_scope.

(** ** Machine numbers: int64 and float64 *)

Module Int64.

Definition min_int : Z := - 2 ^ 63.
Definition max_int : Z := 2 ^ 63 - 1.

Definition in_range (z : Z) : Prop := min_int <= z <= max_int.

(** Two's-complement wrap-around of a mathematical integer to 64 bits. *)
Definition wrap (z : Z) : Z := (z + 2 ^ 63) mod 2 ^ 64 - 2 ^ 63.

Definition add (a b : Z) : Z := wrap (a + b).

(** numpy's [abs] on an int64: [abs(-2**63)] wraps back to [-2**63]. *)
Definition abs (a : Z) : Z := wrap (Z.abs a).

(** Conversion of an int64 to float64, rounding to nearest. *)
Definition to_float (z : Z) : float :=
  if z =? min_int then (-0x1p63)%float
  else if z <? 0 then PrimFloat.opp (PrimFloat.of_uint63 (Uint63.of_Z (- z)))
  else PrimFloat.of_uint63 (Uint63.of_Z z).

End Int64.

(** binary64 numbers through their specification ([spec_float]): the
    value of a finite number scaled by [2 ** 1074], which is an integer, and
    the sign classes used below. *)
Module Binary64.

(** [value * 2 ** 1074] of a finite number; 0 on the others. *)
Definition scaled (f : spec_float) : Z :=
  match f with
  | S754_finite s m e => cond_Zopp s (Z.pos m * 2 ^ (e + 1074))
  | _ => 0
  end.

(** Zero or a finite nonzero number: not NaN, not an infinity. *)
Definition finite_sf (f : spec_float) : Prop :=
  match f with
  | S754_zero _ | S754_finite _ _ _ => True
  | _ => False
  end.

(** Zero, a positive finite number or [+inf]. *)
Definition nonneg (f : spec_float) : Prop :=
  match f with
  | S754_zero _ | S754_finite false _ _ | S754_infinity false => True
  | _ => False
  end.

(** A positive finite number or [+inf]. *)
Definition strictly_positive (f : spec_float) : Prop :=
  match f with
  | S754_finite false _ _ | S754_infinity false => True
  | _ => False
  end.

(** The number 1. *)
Definition one : spec_float := S754_finite false 4503599627370496 (-52).

End Binary64.

(** ** The pandas operations [validate] applies to a numeric series *)

(** A numeric series: dtype int64 (woodwork's Integer) or float64 (Double). *)
Inductive Numeric :=
| Ints (vals : list Z)
| Floats (vals : list float).

Module Series.

Definition length (y : Numeric) : nat :=
  match y with
  | Ints l => List.length l
  | Floats l => List.length l
  end.

(** [astype(float64)]: the values scipy, numpy's [log] and pandas' [mean]
    and [std] compute on. *)
Definition to_float64 (y : Numeric) : list float :=
  match y with
  | Ints l => map Int64.to_float l
  | Floats l => l
  end.

(** [any(y <= 0)]. A NaN compares false. *)
Definition any_le_zero (y : Numeric) : bool :=
  match y with
  | Ints l => existsb (fun v => v <=? 0) l
  | Floats l => existsb (fun v => PrimFloat.leb v 0%float) l
  end.

Definition fmin (a b : float) : float := if PrimFloat.ltb b a then b else a.

(** [y.min()] on float64: NaN entries are skipped; the minimum of an empty
    or all-NaN series is NaN. *)
Definition float_min (l : list float) : float :=
  match List.filter (fun v => negb (PrimFloat.is_nan v)) l with
  | [] => PrimFloat.nan
  | v :: vs => fold_left fmin vs v
  end.

(** [y.min()] on int64; [None] stands for the NaN of an empty series. *)
Definition int_min (l : list Z) : option Z :=
  match l with
  | [] => None
  | v :: vs => Some (fold_left Z.min vs v)
  end.

(** [y + abs(y.min()) + 1], elementwise and left to right.  On int64 the
    sums wrap around.  The minimum of an empty int64 series is NaN, which
    makes the sum an (empty) float64 series. *)
Definition shift (y : Numeric) : Numeric :=
  match y with
  | Ints l =>
      match int_min l with
      | Some m => Ints (map (fun x => Int64.add (Int64.add x (Int64.abs m)) 1) l)
      | None => Floats (map (fun x => (Int64.to_float x + PrimFloat.nan + 1)%float) l)
      end
  | Floats l =>
      let m := float_min l in
      Floats (map (fun x => (x + PrimFloat.abs m + 1)%float) l)
  end.

(** [y[y < t]] for a float64 scalar [t]: the entries strictly below [t] are
    kept, in order.  An int64 entry is converted to float64 for the
    comparison; a comparison with NaN is false. *)
Definition below (y : Numeric) (t : float) : Numeric :=
  match y with
  | Ints l => Ints (List.filter (fun v => PrimFloat.ltb (Int64.to_float v) t) l)
  | Floats l => Floats (List.filter (fun v => PrimFloat.ltb v t) l)
  end.

End Series.

(** ** Problem types, woodwork series and check results *)

(** Modelled from the spec: the problem-type enumeration of
    [evalml.problem_types] ([regression] and [time-series-regression] are
    the tags the check accepts; every other tag is rejected). *)
Inductive ProblemTypes :=
| BINARY
| MULTICLASS
| REGRESSION
| TIME_SERIES_REGRESSION
| TIME_SERIES_BINARY
| TIME_SERIES_MULTICLASS.

#[global] Instance ProblemTypes_eq_dec : EqDecision ProblemTypes.
Proof. solve_decision. Defined.

(** [ww.logical_types.Integer.type_string] and
    [ww.logical_types.Double.type_string]. *)
Definition Integer_type_string : string := "integer".
Definition Double_type_string : string := "double".

(** A series after woodwork's type inference.  The logical types Integer
    and Double are exactly the ones backed by int64 and float64 data; every
    other logical type carries its own type string. *)
Inductive WwSeries :=
| WwInteger (vals : list Z)
| WwDouble (vals : list float)
| WwOther (ts : string) (data : Column)
    (other : bool_decide (ts <> Integer_type_string /\ ts <> Double_type_string) = true).

(** [y.ww.logical_type.type_string]. *)
Definition type_string (y : WwSeries) : string :=
  match y with
  | WwInteger _ => Integer_type_string
  | WwDouble _ => Double_type_string
  | WwOther ts _ _ => ts
  end.

(** The numeric data of a series, when its dtype is int64 or float64. *)
Definition numeric (y : WwSeries) : option Numeric :=
  match y with
  | WwInteger l => Some (Ints l)
  | WwDouble l => Some (Floats l)
  | WwOther _ _ _ => None
  end.

(** The values a [details] or [metadata] mapping holds. *)
Inductive DictValue :=
| VNone
| VBool (b : bool)
| VStr (s : string)
| VStrs (l : list string)
| VProblemType (p : ProblemTypes).

#[global] Instance DictValue_eq_dec : EqDecision DictValue.
Proof. solve_decision. Defined.

(** Modelled from the spec: the members of [DataCheckMessageCode] the
    check uses, the members of [DataCheckActionCode] and the two levels of
    a message. *)
Inductive DataCheckMessageCode :=
| TARGET_IS_NONE
| TARGET_UNSUPPORTED_PROBLEM_TYPE
| TARGET_UNSUPPORTED_TYPE
| TARGET_LOGNORMAL_DISTRIBUTION.

Inductive DataCheckActionCode :=
| DROP_COL
| IMPUTE_COL
| TRANSFORM_TARGET.

Inductive DataCheckMessageType :=
| WARNING
| ERROR.

(** Modelled from the spec: the mapping [DataCheckError(...).to_dict()] and
    [DataCheckWarning(...).to_dict()] build,
    [{message, data_check_name, level, code, details}]. *)
Record MessageDict := mkMessage {
  message : string;
  data_check_name : string;
  level : DataCheckMessageType;
  code : DataCheckMessageCode;
  details : gmap string DictValue
}.

(** Modelled from the spec: the mapping [DataCheckAction(...).to_dict()]
    builds, [{code, metadata}]. *)
Record ActionDict := mkAction {
  action_code : DataCheckActionCode;
  metadata : gmap string DictValue
}.

Definition DataCheckError (message data_check_name : string)
    (message_code : DataCheckMessageCode) (details : gmap string DictValue) : MessageDict :=
  mkMessage message data_check_name ERROR message_code details.

Definition DataCheckWarning (message data_check_name : string)
    (message_code : DataCheckMessageCode) (details : gmap string DictValue) : MessageDict :=
  mkMessage message data_check_name WARNING message_code details.

Definition DataCheckAction (action_code : DataCheckActionCode)
    (metadata : gmap string DictValue) : ActionDict :=
  mkAction action_code metadata.

(** The dict [{"warnings": [...], "errors": [...], "actions": [...]}]. *)
Record Results := mkResults {
  warnings : list MessageDict;
  errors : list MessageDict;
  actions : list ActionDict
}.

Definition append_error (r : Results) (m : MessageDict) : Results :=
  mkResults (warnings r) (errors r ++ [m]) (actions r).

Definition append_warning (r : Results) (m : MessageDict) : Results :=
  mkResults (warnings r ++ [m]) (errors r) (actions r).

Definition append_action (r : Results) (a : ActionDict) : Results :=
  mkResults (warnings r) (errors r) (actions r ++ [a]).

(** ** The collaborators of the check *)

(** What [scipy.stats.shapiro] returns. *)
Record ShapiroResult := mkShapiro { statistic : float; pvalue : float }.

(** The calls [validate] makes that can raise, as they appear in the log. *)
Inductive Call :=
| Call_infer_feature_types (y : PyObj)
| Call_shapiro (x : list float).

(** The third-party functions [validate] relies on.  [shapiro] and
    [infer_feature_types] can raise; the others are total numeric or
    formatting primitives. *)
Class Collaborators := {
  (* scipy.stats.shapiro on the float64 values of a sample *)
  shapiro : list float -> Outcome ShapiroResult;
  (* evalml.utils.infer_feature_types: woodwork's type inference *)
  infer_feature_types : PyObj -> Outcome WwSeries;
  (* pandas' Series.mean and Series.std on the float64 values *)
  pd_mean : list float -> float;
  pd_std : list float -> float;
  (* Python's round(x, ndigits) on a float64 *)
  py_round : float -> Z -> float;
  (* numpy's log on one float64 *)
  np_log : float -> float;
  (* the text an f-string gives a float64 and str.format gives a problem type *)
  py_format : float -> string;
  py_str : ProblemTypes -> string
}.

(** ** [TargetDistributionDataCheck] *)

Module TargetDistributionDataCheck.

(** The check object: [__init__] stores the problem type, which
    [handle_problem_types] has turned into a member of the enumeration. *)
Record t := mk { problem_type : ProblemTypes }.

(** [self.name], the name of the class. *)
Definition name (self : t) : string := "TargetDistributionDataCheck".

Definition empty_results : Results := mkResults [] [] [].

(** [0.05] as Python reads it: the binary64 number nearest to 1/20. *)
Definition alpha : float := 0x1.999999999999ap-5%float.

(** The problem types the check applies to. *)
Definition supported (p : ProblemTypes) : Prop :=
  p = REGRESSION \/ p = TIME_SERIES_REGRESSION.

Section Validate.

Context `{Collaborators}.

Local Open Scope py_scope.

(** Lines 107-114: the series the two later normality tests look at. *)
Definition shifted (y : Numeric) : Numeric :=
  if Series.any_le_zero y then Series.shift y else y.

Definition threshold (y y_new : Numeric) : float :=
  (pd_mean (Series.to_float64 y_new)
   + 3 * py_round (pd_std (Series.to_float64 y)) 3)%float.

Definition trimmed (y : Numeric) : Numeric :=
  let y_new := shifted y in
  Series.below y_new (threshold y y_new).

(** Lines 126-146: the warning and the action of a detected lognormal
    distribution. *)
Definition lognormal_warning (self : t) (shapiro_test_og : ShapiroResult) : MessageDict :=
  let details : gmap string DictValue :=
    {[ "shapiro-statistic/pvalue" :=
         VStr (py_format (py_round (statistic shapiro_test_og) 3)
               +:+ "/" +:+ py_format (py_round (pvalue shapiro_test_og) 3)) ]} in
  DataCheckWarning "Target may have a lognormal distribution." (name self)
    TARGET_LOGNORMAL_DISTRIBUTION details.

Definition transform_target_action : ActionDict :=
  DataCheckAction TRANSFORM_TARGET
    (<[ "column" := VNone ]>
       (<[ "is_target" := VBool true ]>
          (<[ "transformation_strategy" := VStr "lognormal" ]> ∅))).

(** Lines 103-148: the distribution analysis of a numeric target. *)
Definition analyse (self : t) (results : Results) (y : Numeric) : M Call Results :=
  r <- call (Call_shapiro (Series.to_float64 y)) (shapiro (Series.to_float64 y)) ;;
  if PrimFloat.leb alpha (pvalue r) then ret results
  else
    let y_new := trimmed y in
    shapiro_test_og <-
      call (Call_shapiro (Series.to_float64 y_new)) (shapiro (Series.to_float64 y_new)) ;;
    shapiro_test_log <-
      call (Call_shapiro (map np_log (Series.to_float64 y_new)))
           (shapiro (map np_log (Series.to_float64 y_new))) ;;
    let log_detected := PrimFloat.leb (pvalue shapiro_test_og) (pvalue shapiro_test_log) in
    if log_detected then
      let results := append_warning results (lognormal_warning self shapiro_test_og) in
      let results := append_action results transform_target_action in
      ret results
    else ret results.

Definition validate (self : t) (X y : PyObj) : M Call Results :=
  let results := empty_results in
  if is_None y then
    ret (append_error results
           (DataCheckError "Target is None" (name self) TARGET_IS_NONE ∅))
  else if negb (bool_decide (problem_type self ∈ [REGRESSION; TIME_SERIES_REGRESSION])) then
    ret (append_error results
           (DataCheckError
              ("Problem type " +:+ py_str (problem_type self)
               +:+ " is unsupported. Valid problem types include: [ProblemTypes.REGRESSION, ProblemTypes.TIME_SERIES_REGRESSION]")
              (name self) TARGET_UNSUPPORTED_PROBLEM_TYPE
              {[ "unsupported_problem_type" := VProblemType (problem_type self) ]}))
  else
    y <- call (Call_infer_feature_types y) (infer_feature_types y) ;;
    let allowed_types := [Integer_type_string; Double_type_string] in
    let is_supported_type := bool_decide (type_string y ∈ allowed_types) in
    if negb is_supported_type then
      ret (append_error results
             (DataCheckError
                ("Target is unsupported " +:+ type_string y
                 +:+ " type. Valid Woodwork logical types include: "
                 +:+ String.concat ", " allowed_types)
                (name self) TARGET_UNSUPPORTED_TYPE
                {[ "unsupported_type" := VStr (type_string y) ]}))
    else
      match numeric y with
      | Some y => analyse self results y
      | None =>
          (* not reached: a supported logical type has numeric data *)
          raise (mkExc "TypeError" "'<=' not supported on this dtype")
      end.

(** The calls of a run that goes through the whole analysis. *)
Definition analysis_calls (y : PyObj) (n : Numeric) : list Call :=
  [Call_infer_feature_types y;
   Call_shapiro (Series.to_float64 n);
   Call_shapiro (Series.to_float64 (trimmed n));
   Call_shapiro (map np_log (Series.to_float64 (trimmed n)))].

End Validate.

End TargetDistributionDataCheck.

(** ** [Estimator] *)

Module Estimator.

Inductive ComponentTypes :=
| CLASSIFIER
| REGRESSOR.

(** A search range of [skopt.space]. *)
Inductive Space :=
| Real (lo hi : float)
| Integer (lo hi : Z)
| Choices (l : list string).

(** The wrapped third-party model ([self._component_obj]) as the wrapper
    sees it: three methods, each of which returns an object or raises. *)
Record ComponentObj := mkObj {
  obj_predict : PyObj -> Outcome PyObj;
  obj_predict_proba : PyObj -> Outcome PyObj;
  obj_score : PyObj -> PyObj -> Outcome PyObj
}.

(** The calls the wrapper makes on the wrapped model. *)
Inductive Call :=
| Call_predict (X : PyObj)
| Call_predict_proba (X : PyObj)
| Call_score (X y : PyObj).

(** The attributes [Estimator.__init__] hands to [ComponentBase]. *)
Record t := mk {
  name : string;
  component_type : ComponentTypes;
  hyperparameters : list (string * Space);
  needs_fitting : bool;
  _component_obj : ComponentObj;
  random_state : Z
}.

Local Open Scope py_scope.

(** A method body that ends without a [return] statement returns [None]. *)
Definition predict (self : t) (X : PyObj) : M Call PyObj :=
  call (Call_predict X) (obj_predict (_component_obj self) X) ;;;
  ret PyNone.

Definition predict_proba (self : t) (X : PyObj) : M Call PyObj :=
  call (Call_predict_proba X) (obj_predict_proba (_component_obj self) X) ;;;
  ret PyNone.

Definition score (self : t) (X y : PyObj) (other_objectives : PyObj) : M Call PyObj :=
  call (Call_score X y) (obj_score (_component_obj self) X y) ;;;
  ret PyNone.

End Estimator.

(** ** The specification's wording

    The prepared series of section 4.1, steps 5 and 6, read literally: the
    shift adds the one quantity [abs(min) + 1], and trimming drops the
    values that are greater than or equal to the threshold.  Then the
    side conditions under which the shift gives strictly positive values,
    and the details of the unsupported-type error of step 3. *)

Module Spec.

Section Wording.

Context `{Collaborators}.

Definition shifted (y : Numeric) : Numeric :=
  if Series.any_le_zero y then
    match y with
    | Ints l =>
        match Series.int_min l with
        | Some m => Ints (map (fun x => Int64.add x (Int64.add (Int64.abs m) 1)) l)
        | None => y
        end
    | Floats l =>
        let m := Series.float_min l in
        Floats (map (fun x => (x + (PrimFloat.abs m + 1))%float) l)
    end
  else y.

Definition drop_from (y : Numeric) (t : float) : Numeric :=
  match y with
  | Ints l => Ints (List.filter (fun v => negb (PrimFloat.leb t (Int64.to_float v))) l)
  | Floats l => Floats (List.filter (fun v => negb (PrimFloat.leb t v)) l)
  end.

Definition analysed (y : Numeric) : Numeric :=
  let s := shifted y in
  drop_from s (pd_mean (Series.to_float64 s)
               + 3 * py_round (pd_std (Series.to_float64 y)) 3)%float.

Definition all_positive (y : Numeric) : Prop :=
  match y with
  | Ints l => Forall (fun v => 0 < v) l
  | Floats l => Forall (fun v => PrimFloat.ltb 0 v = true) l
  end.

(** The prepared series as the specification describes it: the series the
    check analyses is [analysed], and a shift leaves only strictly positive
    values. *)
Definition prepared_as_specified (y : Numeric) : Prop :=
  TargetDistributionDataCheck.trimmed y = analysed y
  /\ (Series.any_le_zero y = true ->
      all_positive (TargetDistributionDataCheck.shifted y)).

(** A float64 series without NaN and without infinities. *)
Definition all_finite (l : list float) : Prop :=
  Forall (fun v => PrimFloat.is_finite v = true) l.

(** An int64 series on which [y + abs(y.min()) + 1] does not wrap around. *)
Definition shift_fits (l : list Z) : Prop :=
  Forall Int64.in_range l /\
  forall m, Series.int_min l = Some m ->
    Int64.min_int < m /\ Forall (fun v => v + Z.abs m + 1 <= Int64.max_int) l.

End Wording.

(** Whether an entry of a [details] mapping names the allowed logical
    types: a list holding both type strings, or a text containing both. *)
Fixpoint contains (s t : string) : bool :=
  String.prefix s t
  || match t with
     | EmptyString => false
     | String _ t' => contains s t'
     end.

Definition names_allowed_types (v : DictValue) : bool :=
  match v with
  | VStrs l =>
      bool_decide (Integer_type_string ∈ l) && bool_decide (Double_type_string ∈ l)
  | VStr s => contains Integer_type_string s && contains Double_type_string s
  | _ => false
  end.

Definition details_name_allowed_types (d : gmap string DictValue) : Prop :=
  exists k v, d !! k = Some v /\ names_allowed_types v = true.

(** The unsupported-type error as the specification describes it: the one
    error of the result, whose details include the detected type and the
    list of allowed types. *)
Definition unsupported_type_error_as_specified
    (out : Outcome Results) (detected : string) : Prop :=
  exists e,
    out = Return {| warnings := []; errors := [e]; actions := [] |}
    /\ code e = TARGET_UNSUPPORTED_TYPE
    /\ (exists k, details e !! k = Some (VStr detected))
    /\ details_name_allowed_types (details e).

End Spec.

(** ** Reference collaborators

    Executable stand-ins for the third-party functions, used to run the
    check on concrete targets.  [py_round] and [py_format] follow numpy
    ([rint(x * 10**n) / 10**n]) and Python's shortest float text on the
    three-decimal values the check prints; [pd_mean] and [pd_std] sum from
    left to right; [np_log] is a series approximation; the normality test
    keeps scipy's minimum sample length and its answer on a sample of range
    zero, and otherwise scores the sample skewness. *)

Module Reference.

Local Open Scope float_scope.

Definition of_Z (z : Z) : float :=
  if (z <? 0)%Z then - PrimFloat.of_uint63 (Uint63.of_Z (- z))
  else PrimFloat.of_uint63 (Uint63.of_Z z).

Definition of_nat (n : nat) : float := of_Z (Z.of_nat n).

Definition sum (l : list float) : float := fold_left PrimFloat.add l 0.

Definition mean (l : list float) : float := sum l / of_nat (List.length l).

Definition central_moment (k : nat) (l : list float) : list float :=
  let mu := mean l in
  map (fun x => Nat.iter k (fun acc => acc * (x - mu)) 1) l.

(** pandas skips NaN entries ([skipna=True]). *)
Definition dropna (l : list float) : list float :=
  List.filter (fun v => negb (PrimFloat.is_nan v)) l.

Definition pd_mean (l : list float) : float := mean (dropna l).

(** The sample standard deviation ([ddof=1]). *)
Definition pd_std (l : list float) : float :=
  let v := dropna l in
  PrimFloat.sqrt (sum (central_moment 2 v) / of_nat (List.length v - 1)).

(** Rounding half to even of [m / d] for [0 < d]. *)
Definition div_half_even (m d : Z) : Z :=
  let q := (m / d)%Z in
  let r := (m mod d)%Z in
  if (2 * r <? d)%Z then q
  else if (d <? 2 * r)%Z then (q + 1)%Z
  else if Z.even q then q else (q + 1)%Z.

(** The integer nearest to a finite float, ties to even; [None] for NaN
    and the infinities. *)
Definition nearest_Z (x : float) : option Z :=
  match Prim2SF x with
  | S754_zero _ => Some 0%Z
  | S754_finite s m e =>
      let k := if (0 <=? e)%Z then (Z.pos m * 2 ^ e)%Z
               else div_half_even (Z.pos m) (2 ^ (- e)) in
      Some (if s then (- k)%Z else k)
  | _ => None
  end.

(** [numpy.rint]. *)
Definition rint (x : float) : float :=
  match Prim2SF x with
  | S754_finite s m e =>
      if (0 <=? e)%Z then x
      else
        let f := of_Z (div_half_even (Z.pos m) (2 ^ (- e))) in
        if s then - f else f
  | _ => x
  end.

Definition py_round (x : float) (ndigits : Z) : float :=
  let p := of_Z (10 ^ ndigits) in
  rint (x * p) / p.

Definition pad3 (s : string) : string :=
  match String.length s with
  | 1%nat => "00" +:+ s
  | 2%nat => "0" +:+ s
  | _ => s
  end.

Definition format_milli (k : Z) : string :=
  let a := Z.abs k in
  let frac := (a mod 1000)%Z in
  let digits :=
    if (frac mod 100 =? 0)%Z then pretty (frac / 100)%Z
    else if (frac mod 10 =? 0)%Z then String.substring 0 2 (pad3 (pretty frac))
    else pad3 (pretty frac) in
  (if (k <? 0)%Z then "-" else "") +:+ pretty (a / 1000)%Z +:+ "." +:+ digits.

(** The text of a float that has at most three decimals. *)
Definition py_format (x : float) : string :=
  match nearest_Z (x * 1000) with
  | Some k => format_milli k
  | None => if PrimFloat.is_nan x then "nan" else if x <? 0 then "-inf" else "inf"
  end.

Definition ln2 : float := 0x1.62e42fefa39efp-1.

Fixpoint atanh_series (n : nat) (k : float) (z2 : float) : float :=
  match n with
  | O => 1 / k
  | S n' => 1 / k + z2 * atanh_series n' (k + 2) z2
  end.

(** The natural logarithm: [log(m * 2**e) = log(m) + e * log(2)], with
    [log(m) = 2 * atanh((m - 1) / (m + 1))]. *)
Definition np_log (x : float) : float :=
  if PrimFloat.is_nan x then x
  else if x <? 0 then PrimFloat.nan
  else if x =? 0 then PrimFloat.neg_infinity
  else if PrimFloat.is_infinity x then x
  else
    let (m, e) := Z.frexp x in
    let z := (m - 1) / (m + 1) in
    2 * z * atanh_series 24 1 (z * z) + of_Z e * ln2.

Definition skewness (l : list float) : float :=
  let n := of_nat (List.length l) in
  let m2 := sum (central_moment 2 l) / n in
  let m3 := sum (central_moment 3 l) / n in
  m3 / (m2 * PrimFloat.sqrt m2).

Definition range_zero (l : list float) : bool :=
  match l with
  | [] => true
  | x :: xs => forallb (fun y => y =? x) xs
  end.

Definition shapiro (x : list float) : Outcome ShapiroResult :=
  if (List.length x <? 3)%nat then
    Raise (mkExc "ValueError" "Data must be at least length 3.")
  else if range_zero x then Return (mkShapiro 1 1)
  else
    let g2 := skewness x * skewness x in
    let q := 1 + of_nat (List.length x) * g2 in
    Return (mkShapiro (1 / (1 + g2)) (1 / (q * q))).

Definition infer_feature_types (y : PyObj) : Outcome WwSeries :=
  match y with
  | PySeries (IntCol l) => Return (WwInteger l)
  | PySeries (FloatCol l) => Return (WwDouble l)
  | PySeries (BoolCol l) => Return (WwOther "boolean" (BoolCol l) eq_refl)
  | PySeries (StrCol l) => Return (WwOther "categorical" (StrCol l) eq_refl)
  | _ => Raise (mkExc "ValueError" "cannot convert the input to a series")
  end.

Definition py_str (p : ProblemTypes) : string :=
  match p with
  | BINARY => "binary"
  | MULTICLASS => "multiclass"
  | REGRESSION => "regression"
  | TIME_SERIES_REGRESSION => "time series regression"
  | TIME_SERIES_BINARY => "time series binary"
  | TIME_SERIES_MULTICLASS => "time series multiclass"
  end.

#[export] Instance collaborators : Collaborators := {
  shapiro := shapiro;
  infer_feature_types := infer_feature_types;
  pd_mean := pd_mean;
  pd_std := pd_std;
  py_round := py_round;
  np_log := np_log;
  py_format := py_format;
  py_str := py_str
}.

End Reference.

(** ** Concrete checks and targets *)

Module Examples.

Import TargetDistributionDataCheck.

#[local] Existing Instance Reference.collaborators.

Local Open Scope float_scope.

Definition regression_check : TargetDistributionDataCheck.t := mk REGRESSION.
Definition binary_check : TargetDistributionDataCheck.t := mk BINARY.

(** The result of a normality test that returns. *)
Definition tested (x : list float) : ShapiroResult :=
  match Reference.shapiro x with
  | Return r => r
  | Raise _ => mkShapiro PrimFloat.nan PrimFloat.nan
  end.

(** A right-skewed target whose logarithm is evenly spread. *)
Definition doubling : list float := [1; 2; 4; 8; 16; 32; 64].

(** A left-skewed target: its logarithm is skewed even more. *)
Definition saturating : list float := [1; 33; 49; 57; 61; 63; 64].

(** A symmetric target. *)
Definition symmetric : list float := [1; 2; 3; 4; 5].

(** A sample below the minimum length of the normality test. *)
Definition too_short : list float := [1; 2].

(** An integer target with values at most 0. *)
Definition with_negatives : list Z := [-3; 0; 1; 2; 4; 9; 40]%Z.

(** An integer target on which the shift wraps around. *)
Definition near_max_int : list Z := [-1; 0; 0; 0; 0; 0; 0; 2 ^ 63 - 1]%Z.

(** A float target with a missing value. *)
Definition with_nan : list float := [-1; 0; 0; 0; 0; 0; 0; 0; 0; 0; 50; PrimFloat.nan].

(** A float target on which the two sums of the shift round. *)
Definition with_large : list float := [-1; 0; 0; 0; 1e16].

(** A target of zero variance. *)
Definition constant : list Z := [5; 5; 5]%Z.

(** A float target of zero variance whose computed mean is not its value:
    [0.1 + 0.1 + 0.1] rounds up, and a third of it is the float after
    [0.1]. *)
Definition tenth : float := 0x1.999999999999ap-4.

Definition tenths : list float := [tenth; tenth; tenth].

(** A float target with an infinite value: its mean is infinite and its
    standard deviation is not a number. *)
Definition with_infinity : list float := [1; 2; PrimFloat.infinity].

Definition labels : list string := ["a"; "b"; "a"].

End Examples.

(** ** The concrete estimators of [estimator.py] *)

Module Components.

Import Estimator.

(** The third-party model classes the module imports. *)
Inductive LibraryClass :=
| LogisticRegression
| SKRandomForestClassifier
| XGBClassifier
| SKRandomForestRegressor
| SKLinearRegression.

(** The one call a constructor makes on a library: the class it
    instantiates and the keyword arguments it passes. *)
Inductive Construction :=
| Construct (cls : LibraryClass) (kwargs : gmap string PyObj).

(** Instantiating a model class of scikit-learn or xgboost: it returns the
    model or raises. *)
Class Libraries := {
  instantiate : LibraryClass -> gmap string PyObj -> Outcome ComponentObj
}.

(** A constructed estimator: the instance attributes the constructor body
    assigns from its parameters, and what it hands to [Estimator.__init__]. *)
Record Component := mkComponent {
  attributes : gmap string PyObj;
  base : Estimator.t
}.

(** [Estimator.__init__] passes its six arguments on to the base class;
    [needs_fitting] and [random_state] default to [False] and [0] when the
    caller leaves them out. *)
Definition Estimator_init (name : string) (component_type : ComponentTypes)
    (hyperparameters : list (string * Space)) (needs_fitting : option bool)
    (component_obj : ComponentObj) (random_state : option Z) : Estimator.t :=
  Estimator.mk name component_type hyperparameters
    (default false needs_fitting) component_obj (default 0 random_state).

Section Constructors.

Context `{Libraries}.

Local Open Scope py_scope.

(** [.01] as Python reads it. *)
Definition one_hundredth : float := 0x1.47ae147ae147bp-7%float.

(** A parameter left out by the caller takes its default ([None] here). *)
Definition LogisticRegressionClassifier (penalty C n_jobs random_state : option PyObj)
    : M Construction Component :=
  let penalty := default (PyStr "l2") penalty in
  let C := default (PyFloat 1) C in
  let n_jobs := default (PyInt (-1)) n_jobs in
  let random_state := default (PyInt 0) random_state in
  let name := "Logistic Regression Classifier" in
  let component_type := CLASSIFIER in
  let hyperparameters :=
    [("penalty", Choices ["l2"]); ("C", Real one_hundredth 10)] in
  let kwargs : gmap string PyObj :=
    list_to_map [("penalty", penalty); ("C", C); ("random_state", random_state);
                 ("multi_class", PyStr "auto"); ("solver", PyStr "lbfgs");
                 ("n_jobs", n_jobs)] in
  _component_obj <- call (Construct LogisticRegression kwargs)
                         (instantiate LogisticRegression kwargs) ;;
  ret (mkComponent
         (list_to_map [("penalty", penalty); ("C", C); ("n_jobs", n_jobs);
                       ("random_state", random_state)])
         (Estimator_init name component_type hyperparameters None _component_obj None)).

Definition RandomForestClassifier (n_estimators : PyObj)
    (max_depth n_jobs random_state : option PyObj) : M Construction Component :=
  let max_depth := default PyNone max_depth in
  let n_jobs := default (PyInt (-1)) n_jobs in
  let random_state := default (PyInt 0) random_state in
  let name := "Random Forest Classifier" in
  let component_type := CLASSIFIER in
  let hyperparameters :=
    [("n_estimators", Integer 10 1000); ("max_depth", Integer 1 32)] in
  let kwargs : gmap string PyObj :=
    list_to_map [("random_state", random_state); ("n_estimators", n_estimators);
                 ("max_depth", max_depth); ("n_jobs", n_jobs)] in
  _component_obj <- call (Construct SKRandomForestClassifier kwargs)
                         (instantiate SKRandomForestClassifier kwargs) ;;
  ret (mkComponent
         (list_to_map [("n_estimators", n_estimators); ("max_depth", max_depth);
                       ("n_jobs", n_jobs); ("random_state", random_state)])
         (Estimator_init name component_type hyperparameters None _component_obj None)).

Definition XGBoostClassifier (eta max_depth min_child_weight : PyObj)
    (random_state : option PyObj) : M Construction Component :=
  let random_state := default (PyInt 0) random_state in
  let name := "XGBoost Classifier" in
  let component_type := CLASSIFIER in
  let hyperparameters :=
    [("eta", Real 0 1); ("max_depth", Integer 1 20); ("min_child_weight", Real 1 10)] in
  let kwargs : gmap string PyObj :=
    list_to_map [("random_state", random_state); ("eta", eta);
                 ("max_depth", max_depth); ("min_child_weight", min_child_weight)] in
  _component_obj <- call (Construct XGBClassifier kwargs)
                         (instantiate XGBClassifier kwargs) ;;
  ret (mkComponent
         (list_to_map [("eta", eta); ("max_depth", max_depth);
                       ("min_child_weight", min_child_weight);
                       ("random_state", random_state)])
         (Estimator_init name component_type hyperparameters None _component_obj None)).

Definition RandomForestRegressor (n_estimators : PyObj)
    (max_depth n_jobs random_state : option PyObj) : M Construction Component :=
  let max_depth := default PyNone max_depth in
  let n_jobs := default (PyInt (-1)) n_jobs in
  let random_state := default (PyInt 0) random_state in
  let name := "Random Forest Regressor" in
  let component_type := REGRESSOR in
  let hyperparameters :=
    [("n_estimators", Integer 10 1000); ("max_depth", Integer 1 32)] in
  let kwargs : gmap string PyObj :=
    list_to_map [("random_state", random_state); ("n_estimators", n_estimators);
                 ("max_depth", max_depth); ("n_jobs", n_jobs)] in
  _component_obj <- call (Construct SKRandomForestRegressor kwargs)
                         (instantiate SKRandomForestRegressor kwargs) ;;
  ret (mkComponent
         (list_to_map [("n_estimators", n_estimators); ("max_depth", max_depth);
                       ("n_jobs", n_jobs); ("random_state", random_state)])
         (Estimator_init name component_type hyperparameters None _component_obj None)).

(** [n_jobs] is accepted and not used. *)
Definition LinearRegressor (n_jobs : option PyObj) : M Construction Component :=
  let name := "Linear Regressor" in
  let component_type := REGRESSOR in
  let hyperparameters : list (string * Space) := [] in
  let kwargs : gmap string PyObj := ∅ in
  _component_obj <- call (Construct SKLinearRegression kwargs)
                         (instantiate SKLinearRegression kwargs) ;;
  ret (mkComponent ∅
         (Estimator_init name component_type hyperparameters None _component_obj None)).

(** A constructor call of the module. *)
Inductive Invocation :=
| New_LogisticRegressionClassifier (penalty C n_jobs random_state : option PyObj)
| New_RandomForestClassifier (n_estimators : PyObj)
    (max_depth n_jobs random_state : option PyObj)
| New_XGBoostClassifier (eta max_depth min_child_weight : PyObj)
    (random_state : option PyObj)
| New_RandomForestRegressor (n_estimators : PyObj)
    (max_depth n_jobs random_state : option PyObj)
| New_LinearRegressor (n_jobs : option PyObj).

Definition construct (i : Invocation) : M Construction Component :=
  match i with
  | New_LogisticRegressionClassifier penalty C n_jobs random_state =>
      LogisticRegressionClassifier penalty C n_jobs random_state
  | New_RandomForestClassifier n_estimators max_depth n_jobs random_state =>
      RandomForestClassifier n_estimators max_depth n_jobs random_state
  | New_XGBoostClassifier eta max_depth min_child_weight random_state =>
      XGBoostClassifier eta max_depth min_child_weight random_state
  | New_RandomForestRegressor n_estimators max_depth n_jobs random_state =>
      RandomForestRegressor n_estimators max_depth n_jobs random_state
  | New_LinearRegressor n_jobs => LinearRegressor n_jobs
  end.

(** The [random_state] a constructor call works with: the argument, or
    the default [0]; [LinearRegressor] has none. *)
Definition random_state_of (i : Invocation) : option PyObj :=
  match i with
  | New_LogisticRegressionClassifier _ _ _ random_state
  | New_RandomForestClassifier _ _ _ random_state
  | New_XGBoostClassifier _ _ _ random_state
  | New_RandomForestRegressor _ _ _ random_state =>
      Some (default (PyInt 0) random_state)
  | New_LinearRegressor _ => None
  end.

End Constructors.

(** A library whose models echo their input, for concrete runs. *)
Definition echo_model : ComponentObj :=
  mkObj (fun X => Return X) (fun X => Return X) (fun X y => Return (PyFloat 1)).

Definition echo_libraries : Libraries := {| instantiate := fun _ _ => Return echo_model |}.

End Components.

(** ** Conditions on a target for the shift of [validate] *)

Module Shift.

(** The shift does what it is for: no int64 wrap-around, no NaN and no
    infinity in float64. *)
Definition safe (y : Numeric) : Prop :=
  match y with
  | Ints l => Spec.shift_fits l
  | Floats l => Spec.all_finite l
  end.

End Shift.

(** * Properties *)

(** ** The call monad *)

Lemma oblivious_ret {E A : Type} (a : A) : oblivious (@ret E A a).
Proof. intros log. unfold ret. simpl. now rewrite app_nil_r. Qed.

Lemma oblivious_raise {E A : Type} (e : PyExc) : oblivious (@raise E A e).
Proof. intros log. unfold raise. simpl. now rewrite app_nil_r. Qed.

Lemma oblivious_call {E A : Type} (ev : E) (o : Outcome A) : oblivious (call ev o).
Proof. intros log. reflexivity. Qed.

Lemma oblivious_bind {E A B : Type} (c : M E A) (k : A -> M E B) :
  oblivious c -> (forall a, oblivious (k a)) -> oblivious (bind c k).
Proof.
  intros Hc Hk log. unfold bind.
  rewrite (Hc log). destruct (c []) as [[a | e] l0]; simpl.
  - rewrite (Hk a (log ++ l0)), (Hk a l0). simpl. now rewrite app_assoc.
  - reflexivity.
Qed.

Lemma oblivious_if {E A : Type} (b : bool) (c1 c2 : M E A) :
  oblivious c1 -> oblivious c2 -> oblivious (if b then c1 else c2).
Proof. now destruct b. Qed.

(** ** Comparisons of binary64 numbers *)

Lemma SFcompare_swap (a b : spec_float) :
  SFcompare b a = option_map CompOpp (SFcompare a b).
Proof.
  destruct a as [sa | sa | | sa ma ea], b as [sb | sb | | sb mb eb];
    try destruct sa; try destruct sb; simpl; try reflexivity;
    rewrite (Z.compare_antisym ea eb);
    destruct (ea ?= eb)%Z; simpl; try reflexivity;
    change (Pos.compare_cont Eq mb ma) with (mb ?= ma)%positive;
    change (Pos.compare_cont Eq ma mb) with (ma ?= mb)%positive;
    rewrite (Pos.compare_antisym ma mb); now destruct (ma ?= mb)%positive.
Qed.

(** [x < y] excludes [y <= x]. *)
Lemma ltb_leb_false (x y : float) :
  PrimFloat.ltb x y = true -> PrimFloat.leb y x = false.
Proof.
  rewrite ltb_spec, leb_spec. unfold SFltb, SFleb.
  rewrite (SFcompare_swap (Prim2SF x) (Prim2SF y)).
  now destruct (SFcompare (Prim2SF x) (Prim2SF y)) as [[ | | ] | ].
Qed.

Lemma Prim2SF_not_nan (x : float) :
  PrimFloat.is_nan x = false -> Prim2SF x <> S754_nan.
Proof.
  intros Hn. unfold Prim2SF. rewrite Hn.
  destruct (is_zero x); [discriminate | ].
  destruct (is_infinity x); [discriminate | ].
  destruct (Z.frexp x) as [r ex].
  destruct (shr_fexp prec emax _ _ _) as [mrs e'].
  now destruct (shr_m mrs).
Qed.

(** Two numbers, neither of them NaN, are comparable: [y <= x] unless
    [x < y]. *)
Lemma not_ltb_leb (x y : float) :
  PrimFloat.is_nan x = false -> PrimFloat.is_nan y = false ->
  PrimFloat.ltb x y = false -> PrimFloat.leb y x = true.
Proof.
  intros Hx Hy. apply Prim2SF_not_nan in Hx, Hy.
  rewrite ltb_spec, leb_spec. unfold SFltb, SFleb.
  rewrite (SFcompare_swap (Prim2SF x) (Prim2SF y)).
  destruct (Prim2SF x) as [sx | sx | | sx mx ex], (Prim2SF y) as [sy | sy | | sy my ey];
    try congruence;
    now destruct (SFcompare _ _) as [[ | | ] | ] eqn:Hc.
Qed.

(** ** Addition and comparison of finite binary64 numbers *)

Section Binary64Facts.

Import Binary64.

Lemma digits2_bounds (p : positive) :
  2 ^ (Z.pos (digits2_pos p) - 1) <= Z.pos p < 2 ^ Z.pos (digits2_pos p).
Proof.
  induction p as [p IH | p IH | ]; simpl digits2_pos.
  - rewrite Pos2Z.inj_succ.
    replace (Z.succ (Z.pos (digits2_pos p)) - 1) with (Z.succ (Z.pos (digits2_pos p) - 1)) by lia.
    rewrite !Z.pow_succ_r by lia. lia.
  - rewrite Pos2Z.inj_succ.
    replace (Z.succ (Z.pos (digits2_pos p)) - 1) with (Z.succ (Z.pos (digits2_pos p) - 1)) by lia.
    rewrite !Z.pow_succ_r by lia. lia.
  - simpl. lia.
Qed.

Lemma valid_finite (s : bool) (m : positive) (e : Z) :
  valid_binary (S754_finite s m e) = true ->
  -1074 <= e <= 971
  /\ Z.pos (digits2_pos m) <= 53
  /\ (-1074 < e -> Z.pos (digits2_pos m) = 53).
Proof.
  unfold valid_binary, SpecFloat.valid_binary, bounded, canonical_mantissa, fexp, SpecFloat.emin, prec, emax.
  rewrite andb_true_iff, Z.eqb_eq, Z.leb_le. lia.
Qed.

Lemma scaled_lt_exp (s1 s2 : bool) (m1 m2 : positive) (e1 e2 : Z) :
  valid_binary (S754_finite s1 m1 e1) = true ->
  valid_binary (S754_finite s2 m2 e2) = true ->
  e1 < e2 ->
  Z.pos m1 * 2 ^ (e1 + 1074) < Z.pos m2 * 2 ^ (e2 + 1074).
Proof.
  intros H1 H2 Hlt.
  apply valid_finite in H1 as (He1 & Hd1 & _).
  apply valid_finite in H2 as (He2 & _ & Hd2).
  specialize (Hd2 ltac:(lia)).
  pose proof (digits2_bounds m1) as [_ Hm1].
  pose proof (digits2_bounds m2) as [Hm2 _].
  rewrite Hd2 in Hm2.
  assert (Hp1 : 2 ^ Z.pos (digits2_pos m1) <= 2 ^ 53) by (apply Z.pow_le_mono_r; lia).
  assert (Ha : 0 < 2 ^ (e1 + 1074)) by (apply Z.pow_pos_nonneg; lia).
  assert (Hb : 2 * 2 ^ (e1 + 1074) <= 2 ^ (e2 + 1074)).
  { rewrite <- Z.pow_succ_r by lia. apply Z.pow_le_mono_r; lia. }
  change (2 ^ (53 - 1)) with 4503599627370496 in Hm2.
  change (2 ^ 53) with 9007199254740992 in Hp1.
  nia.
Qed.

Lemma scaled_pos (m : positive) (e : Z) : -1074 <= e -> 0 < Z.pos m * 2 ^ (e + 1074).
Proof. intros He. apply Z.mul_pos_pos; [lia | apply Z.pow_pos_nonneg; lia]. Qed.

(** On finite numbers the comparison is the comparison of the values. *)
Lemma scaled_compare (a b : spec_float) :
  valid_binary a = true -> valid_binary b = true ->
  finite_sf a -> finite_sf b ->
  SFcompare a b = Some (scaled a ?= scaled b).
Proof.
  destruct a as [sa | sa | | sa ma ea], b as [sb | sb | | sb mb eb];
    intros Va Vb Fa Fb; try contradiction; unfold SFcompare, scaled, cond_Zopp.
  - reflexivity.
  - assert (H := scaled_pos mb eb (proj1 (proj1 (valid_finite _ _ _ Vb)))).
    f_equal. destruct sb; symmetry; [apply Z.compare_gt_iff | apply Z.compare_lt_iff]; lia.
  - assert (H := scaled_pos ma ea (proj1 (proj1 (valid_finite _ _ _ Va)))).
    f_equal. destruct sa; symmetry; [apply Z.compare_lt_iff | apply Z.compare_gt_iff]; lia.
  - assert (Ha := scaled_pos ma ea (proj1 (proj1 (valid_finite _ _ _ Va)))).
    assert (Hb := scaled_pos mb eb (proj1 (proj1 (valid_finite _ _ _ Vb)))).
    pose proof (valid_finite _ _ _ Va) as (Hea & _ & _).
    f_equal.
    change (Pos.compare_cont Eq ma mb) with (ma ?= mb)%positive.
    destruct sa, sb.
    + destruct (Z.compare_spec ea eb) as [Heq | Hlt | Hgt].
      * subst eb. assert (Hk : 0 < 2 ^ (ea + 1074)) by (apply Z.pow_pos_nonneg; lia).
        symmetry. destruct (Pos.compare_spec ma mb) as [-> | Hm | Hm]; simpl CompOpp.
        -- apply Z.compare_refl.
        -- apply Z.compare_gt_iff. nia.
        -- apply Z.compare_lt_iff. nia.
      * symmetry. apply Z.compare_gt_iff.
        pose proof (scaled_lt_exp _ _ _ _ _ _ Va Vb Hlt). lia.
      * symmetry. apply Z.compare_lt_iff.
        pose proof (scaled_lt_exp _ _ _ _ _ _ Vb Va Hgt). lia.
    + symmetry. apply Z.compare_lt_iff. lia.
    + symmetry. apply Z.compare_gt_iff. lia.
    + destruct (Z.compare_spec ea eb) as [Heq | Hlt | Hgt].
      * subst eb. assert (Hk : 0 < 2 ^ (ea + 1074)) by (apply Z.pow_pos_nonneg; lia).
        symmetry. destruct (Pos.compare_spec ma mb) as [-> | Hm | Hm].
        -- apply Z.compare_refl.
        -- apply Z.compare_lt_iff. nia.
        -- apply Z.compare_gt_iff. nia.
      * symmetry. apply Z.compare_lt_iff. exact (scaled_lt_exp _ _ _ _ _ _ Va Vb Hlt).
      * symmetry. apply Z.compare_gt_iff. exact (scaled_lt_exp _ _ _ _ _ _ Vb Va Hgt).
Qed.

Lemma shl_align_value (m : positive) (e ez : Z) :
  ez <= e ->
  Z.pos (fst (shl_align m e ez)) = Z.pos m * 2 ^ (e - ez)
  /\ snd (shl_align m e ez) = ez.
Proof.
  intros Hle. unfold shl_align.
  destruct (ez - e) as [ | p | p] eqn:Hd; simpl fst; simpl snd.
  - replace (e - ez) with 0 by lia. simpl. lia.
  - lia.
  - replace (e - ez) with (Z.pos p) by lia.
    change (Pos.iter xO m p) with (shift_pos p m).
    rewrite shift_pos_correct. split; [ | reflexivity].
    rewrite Z.mul_comm. reflexivity.
Qed.

Lemma shr_1_m (mrs : shr_record) :
  0 <= shr_m mrs -> shr_m (shr_1 mrs) = shr_m mrs / 2.
Proof.
  destruct mrs as [m r s]. cbn [shr_m]. intros Hm.
  destruct m as [ | [p | p | ] | p]; cbn [shr_1 shr_m]; try reflexivity; try lia.
  - rewrite Pos2Z.inj_xI. apply (Z.div_unique _ _ _ 1); lia.
  - rewrite Pos2Z.inj_xO. apply (Z.div_unique _ _ _ 0); lia.
Qed.

Lemma iter_pos_shr_1 (p : positive) :
  forall mrs, 0 <= shr_m mrs ->
    shr_m (SpecFloat.iter_pos shr_1 p mrs) = shr_m mrs / 2 ^ Z.pos p.
Proof.
  induction p as [p IH | p IH | ]; intros mrs Hm; cbn [SpecFloat.iter_pos].
  - assert (H1 : 0 <= shr_m (shr_1 mrs)) by (rewrite shr_1_m by exact Hm; apply Z.div_pos; lia).
    assert (H2 : 0 <= shr_m (SpecFloat.iter_pos shr_1 p (shr_1 mrs))).
    { rewrite IH by exact H1. apply Z.div_pos; [exact H1 | apply Z.pow_pos_nonneg; lia]. }
    rewrite IH by exact H2. rewrite IH by exact H1. rewrite shr_1_m by exact Hm.
    rewrite !Z.div_div by (try apply Z.pow_pos_nonneg; lia).
    f_equal. replace (Z.pos p~1) with (1 + Z.pos p + Z.pos p) by lia.
    rewrite !Z.pow_add_r by lia. change (2 ^ 1) with 2. ring.
  - assert (H2 : 0 <= shr_m (SpecFloat.iter_pos shr_1 p mrs)).
    { rewrite IH by exact Hm. apply Z.div_pos; [exact Hm | apply Z.pow_pos_nonneg; lia]. }
    rewrite IH by exact H2. rewrite IH by exact Hm.
    rewrite !Z.div_div by (try apply Z.pow_pos_nonneg; lia).
    f_equal. replace (Z.pos p~0) with (Z.pos p + Z.pos p) by lia.
    rewrite !Z.pow_add_r by lia. ring.
  - rewrite shr_1_m by exact Hm. reflexivity.
Qed.

Lemma shr_record_of_loc_m (m : Z) (l : location) : shr_m (shr_record_of_loc m l) = m.
Proof. destruct l as [ | [ | | ]]; reflexivity. Qed.

(** [shr_fexp]: the mantissa is divided by the power of two that brings
    the exponent up to the one of the format. *)
Lemma shr_fexp_spec (m e : Z) (l : location) :
  0 <= m ->
  let n := fexp prec emax (Zdigits2 m + e) - e in
  shr_m (fst (shr_fexp prec emax m e l)) = (if 0 <? n then m / 2 ^ n else m)
  /\ snd (shr_fexp prec emax m e l) = (if 0 <? n then e + n else e).
Proof.
  intros Hm n. unfold shr_fexp, shr. fold n.
  destruct n as [ | p | p]; simpl fst; simpl snd.
  - split; [apply shr_record_of_loc_m | reflexivity].
  - split; [ | reflexivity].
    rewrite iter_pos_shr_1 by (rewrite shr_record_of_loc_m; exact Hm).
    now rewrite shr_record_of_loc_m.
  - split; [apply shr_record_of_loc_m | reflexivity].
Qed.

Lemma round_nearest_even_ge (m : Z) (l : location) : m <= round_nearest_even m l.
Proof. destruct l as [ | [ | | ]]; simpl; try destruct (Z.even m); lia. Qed.

Lemma div_pow_ge_1 (m : positive) (n : Z) :
  0 <= n <= Z.pos (digits2_pos m) - 1 -> 1 <= Z.pos m / 2 ^ n.
Proof.
  intros Hn. pose proof (digits2_bounds m) as [Hlow _].
  assert (Hpow : 2 ^ n <= 2 ^ (Z.pos (digits2_pos m) - 1)) by (apply Z.pow_le_mono_r; lia).
  apply Z.div_le_lower_bound; [apply Z.pow_pos_nonneg; lia | lia].
Qed.

(** After [shr_fexp] a positive mantissa whose value is at least the least
    positive number of the format is still positive, and the exponent is at
    least the least exponent. *)
Lemma shr_fexp_positive (m : positive) (e : Z) (l : location) :
  -1074 < Z.pos (digits2_pos m) + e ->
  1 <= shr_m (fst (shr_fexp prec emax (Z.pos m) e l))
  /\ -1074 <= snd (shr_fexp prec emax (Z.pos m) e l).
Proof.
  intros Hd.
  destruct (shr_fexp_spec (Z.pos m) e l ltac:(lia)) as [Hm He].
  rewrite Hm, He. clear Hm He.
  unfold fexp, SpecFloat.emin, prec, emax. simpl Zdigits2.
  set (d := Z.pos (digits2_pos m)) in *.
  destruct (Z.ltb_spec 0 (Z.max (d + e - 53) (3 - 1024 - 53) - e)) as [Hn | Hn].
  - split; [apply div_pow_ge_1; fold d; lia | lia].
  - split; lia.
Qed.

Lemma shr_fexp_nonneg (m e : Z) (l : location) :
  0 <= m -> 0 <= shr_m (fst (shr_fexp prec emax m e l)).
Proof.
  intros Hm. destruct (shr_fexp_spec m e l Hm) as [H1 _]. rewrite H1.
  destruct (Z.ltb_spec 0 (fexp prec emax (Zdigits2 m + e) - e)) as [Hn | Hn];
    [ | exact Hm].
  apply Z.div_pos; [exact Hm | apply Z.pow_pos_nonneg; lia].
Qed.

(** Rounding a non-negative mantissa gives a non-negative number, and a
    positive number when the value is at least the least positive number of
    the format. *)
Lemma binary_round_aux_sign (mx ex : Z) (lx : location) :
  0 <= mx ->
  nonneg (binary_round_aux prec emax false mx ex lx)
  /\ (forall p, mx = Z.pos p -> -1074 < Z.pos (digits2_pos p) + ex ->
      strictly_positive (binary_round_aux prec emax false mx ex lx)).
Proof.
  intros Hmx. unfold binary_round_aux.
  pose proof (shr_fexp_nonneg mx ex lx Hmx) as Hnn1.
  assert (Hpos1 : forall p, mx = Z.pos p -> -1074 < Z.pos (digits2_pos p) + ex ->
            1 <= shr_m (fst (shr_fexp prec emax mx ex lx))
            /\ -1074 <= snd (shr_fexp prec emax mx ex lx)).
  { intros p -> Hd. now apply shr_fexp_positive. }
  destruct (shr_fexp prec emax mx ex lx) as [mrs' e']. simpl fst in *. simpl snd in *.
  pose proof (round_nearest_even_ge (shr_m mrs') (loc_of_shr_record mrs')) as Hge.
  set (m2 := round_nearest_even (shr_m mrs') (loc_of_shr_record mrs')) in *.
  pose proof (shr_fexp_nonneg m2 e' loc_Exact ltac:(lia)) as Hnn2.
  assert (Hpos2 : forall p, mx = Z.pos p -> -1074 < Z.pos (digits2_pos p) + ex ->
            1 <= shr_m (fst (shr_fexp prec emax m2 e' loc_Exact))).
  { intros p Hp Hd. destruct (Hpos1 p Hp Hd) as [H1 He'].
    destruct m2 as [ | p2 | p2] eqn:Hm2; try lia.
    apply shr_fexp_positive. lia. }
  destruct (shr_fexp prec emax m2 e' loc_Exact) as [mrs'' e'']. simpl fst in *.
  destruct (shr_m mrs'') as [ | q | q].
  - split; [exact I | ]. intros p Hp Hd. specialize (Hpos2 p Hp Hd). lia.
  - destruct (e'' <=? emax - prec); split; try exact I; intros; exact I.
  - lia.
Qed.

Lemma binary_round_sign (m : positive) (e : Z) :
  nonneg (binary_round prec emax false m e)
  /\ (-1074 < Z.pos (digits2_pos m) + e ->
      strictly_positive (binary_round prec emax false m e)).
Proof.
  unfold binary_round, shl_align.
  set (t := fexp prec emax (Z.pos (digits2_pos m) + e)).
  assert (Ht : -1074 <= t) by (unfold t, fexp, SpecFloat.emin, prec, emax; lia).
  destruct (t - e) as [ | d | d] eqn:Hd.
  - destruct (binary_round_aux_sign (Z.pos m) e loc_Exact ltac:(lia)) as [Hnn Hpos].
    split; [exact Hnn | ]. intros Hlow. now apply (Hpos m).
  - destruct (binary_round_aux_sign (Z.pos m) e loc_Exact ltac:(lia)) as [Hnn Hpos].
    split; [exact Hnn | ]. intros Hlow. now apply (Hpos m).
  - destruct (binary_round_aux_sign (Z.pos (Pos.iter xO m d)) t loc_Exact ltac:(lia))
      as [Hnn Hpos].
    split; [exact Hnn | ]. intros _. apply (Hpos (Pos.iter xO m d) eq_refl). lia.
Qed.

Lemma binary_normalize_sign (m e : Z) :
  0 <= m ->
  nonneg (binary_normalize prec emax m e false)
  /\ (forall p, m = Z.pos p -> -1074 < Z.pos (digits2_pos p) + e ->
      strictly_positive (binary_normalize prec emax m e false)).
Proof.
  intros Hm. destruct m as [ | p | p]; [ | | lia]; simpl.
  - split; [exact I | discriminate].
  - destruct (binary_round_sign p e) as [Hnn Hpos].
    split; [exact Hnn | ]. intros q [= <-]. exact Hpos.
Qed.

Lemma scaled_aligned (s : bool) (m : positive) (e ez : Z) :
  -1074 <= ez <= e ->
  scaled (S754_finite s m e)
  = cond_Zopp s (Z.pos (fst (shl_align m e ez))) * 2 ^ (ez + 1074).
Proof.
  intros He. destruct (shl_align_value m e ez ltac:(lia)) as [-> _].
  unfold scaled. replace (e + 1074) with ((e - ez) + (ez + 1074)) by lia.
  rewrite Z.pow_add_r by lia. destruct s; simpl cond_Zopp; lia.
Qed.

(** The sum of two finite numbers whose values add up to at least zero is
    not negative (and it is a number). *)
Lemma SFadd_nonneg (x a : spec_float) :
  valid_binary x = true -> valid_binary a = true ->
  finite_sf x -> finite_sf a ->
  0 <= scaled x + scaled a ->
  nonneg (SF64add x a).
Proof.
  destruct x as [sx | sx | | sx mx ex], a as [sa | sa | | sa ma ea];
    intros Vx Va Fx Fa Hsum; try contradiction; unfold SF64add, SFadd.
  - now destruct sx, sa.
  - pose proof (scaled_pos ma ea (proj1 (proj1 (valid_finite _ _ _ Va)))).
    destruct sa; simpl in *; [lia | exact I].
  - pose proof (scaled_pos mx ex (proj1 (proj1 (valid_finite _ _ _ Vx)))).
    destruct sx; simpl in *; [lia | exact I].
  - pose proof (valid_finite _ _ _ Vx) as (Hex & _ & _).
    pose proof (valid_finite _ _ _ Va) as (Hea & _ & _).
    set (ez := Z.min ex ea) in *.
    rewrite (scaled_aligned sx mx ex ez), (scaled_aligned sa ma ea ez) in Hsum by lia.
    apply binary_normalize_sign.
    assert (Hk : 0 < 2 ^ (ez + 1074)) by (apply Z.pow_pos_nonneg; lia).
    nia.
Qed.

(** Adding one to a number that is not negative gives a positive number. *)
Lemma SFadd_one_positive (t : spec_float) :
  nonneg t -> strictly_positive (SF64add t one).
Proof.
  destruct t as [s | [ | ] | | [ | ] mt et]; intros Ht; try contradiction;
    unfold SF64add, SFadd, one; try exact I.
  set (ez := Z.min et (-52)).
  destruct (shl_align_value mt et ez ltac:(lia)) as [Hmt _].
  destruct (shl_align_value 4503599627370496 (-52) ez ltac:(lia)) as [Hone _].
  set (mt' := fst (shl_align mt et ez)) in *.
  set (one' := fst (shl_align 4503599627370496 (-52) ez)) in *.
  simpl cond_Zopp. change (Z.pos mt' + Z.pos one') with (Z.pos (mt' + one')).
  destruct (binary_normalize_sign (Z.pos (mt' + one')) ez ltac:(lia)) as [_ Hpos].
  apply (Hpos (mt' + one')%positive eq_refl).
  pose proof (digits2_bounds (mt' + one')) as [_ Hup].
  assert (Hlow : 2 ^ (- ez) <= Z.pos (mt' + one')).
  { rewrite Pos2Z.inj_add, Hone.
    change 4503599627370496 with (2 ^ 52). rewrite <- Z.pow_add_r by lia.
    replace (52 + (-52 - ez)) with (- ez) by lia. lia. }
  assert (- ez < Z.pos (digits2_pos (mt' + one'))); [ | lia].
  apply (Z.pow_lt_mono_r_iff 2); lia.
Qed.

Lemma Prim2SF_finite (x : float) :
  PrimFloat.is_finite x = true -> finite_sf (Prim2SF x).
Proof.
  unfold PrimFloat.is_finite. rewrite negb_true_iff, orb_false_iff. intros [Hn Hi].
  unfold Prim2SF. rewrite Hn, Hi. destruct (is_zero x); [exact I | ].
  destruct (Z.frexp x) as [r ex].
  destruct (shr_fexp prec emax _ _ _) as [mrs e'].
  now destruct (shr_m mrs).
Qed.

Lemma leb_scaled (x y : float) :
  PrimFloat.is_finite x = true -> PrimFloat.is_finite y = true ->
  PrimFloat.leb x y = true <-> scaled (Prim2SF x) <= scaled (Prim2SF y).
Proof.
  intros Fx Fy. rewrite leb_spec. unfold SFleb.
  rewrite (scaled_compare _ _ (Prim2SF_valid x) (Prim2SF_valid y)
             (Prim2SF_finite x Fx) (Prim2SF_finite y Fy)).
  destruct (Z.compare_spec (scaled (Prim2SF x)) (scaled (Prim2SF y))); split;
    intros; try lia; try reflexivity; discriminate.
Qed.

Lemma ltb_scaled (x y : float) :
  PrimFloat.is_finite x = true -> PrimFloat.is_finite y = true ->
  PrimFloat.ltb x y = true <-> scaled (Prim2SF x) < scaled (Prim2SF y).
Proof.
  intros Fx Fy. rewrite ltb_spec. unfold SFltb.
  rewrite (scaled_compare _ _ (Prim2SF_valid x) (Prim2SF_valid y)
             (Prim2SF_finite x Fx) (Prim2SF_finite y Fy)).
  destruct (Z.compare_spec (scaled (Prim2SF x)) (scaled (Prim2SF y))); split;
    intros; try lia; try reflexivity; discriminate.
Qed.

Lemma SFabs_facts (m : spec_float) :
  valid_binary m = true -> finite_sf m ->
  valid_binary (SFabs m) = true /\ finite_sf (SFabs m)
  /\ scaled (SFabs m) = Z.abs (scaled m).
Proof.
  destruct m as [s | s | | s mm em]; intros Vm Fm; try contradiction; simpl.
  - now repeat split.
  - repeat split; [exact Vm | ].
    pose proof (scaled_pos mm em (proj1 (proj1 (valid_finite _ _ _ Vm)))).
    destruct s; simpl; lia.
Qed.

(** The shift of one value: for finite [x] and [m] with [m <= x] and
    [m <= 0], the float64 sum [x + abs m + 1] is strictly positive. *)
Lemma shift_value_positive (x m : float) :
  PrimFloat.is_finite x = true -> PrimFloat.is_finite m = true ->
  PrimFloat.leb m x = true -> PrimFloat.leb m 0 = true ->
  PrimFloat.ltb 0 (x + PrimFloat.abs m + 1) = true.
Proof.
  intros Fx Fm Hmx Hm0.
  apply (leb_scaled m x Fm Fx) in Hmx.
  apply (leb_scaled m 0 Fm eq_refl) in Hm0.
  change (scaled (Prim2SF 0)) with 0 in Hm0.
  destruct (SFabs_facts (Prim2SF m) (Prim2SF_valid m) (Prim2SF_finite m Fm))
    as (Va & Fa & Hsa).
  rewrite ltb_spec, !add_spec, abs_spec.
  change (Prim2SF 0) with (S754_zero false). change (Prim2SF 1) with one.
  assert (Ht : nonneg (SF64add (Prim2SF x) (SFabs (Prim2SF m)))).
  { apply SFadd_nonneg; try assumption;
      [apply Prim2SF_valid | now apply Prim2SF_finite | lia]. }
  apply SFadd_one_positive in Ht.
  destruct (SF64add (SF64add (Prim2SF x) (SFabs (Prim2SF m))) one)
    as [s | [ | ] | | [ | ] mr er]; try contradiction; reflexivity.
Qed.

End Binary64Facts.

(** ** int64 arithmetic and the operations on series *)

Lemma wrap_in_range (z : Z) : Int64.in_range z -> Int64.wrap z = z.
Proof.
  unfold Int64.in_range, Int64.min_int, Int64.max_int, Int64.wrap. intros Hz.
  rewrite Z.mod_small; lia.
Qed.

Lemma wrap_add_l (a b : Z) : Int64.wrap (Int64.wrap a + b) = Int64.wrap (a + b).
Proof.
  unfold Int64.wrap. f_equal.
  replace ((a + 2 ^ 63) mod 2 ^ 64 - 2 ^ 63 + b + 2 ^ 63)
    with ((a + 2 ^ 63) mod 2 ^ 64 + b) by ring.
  rewrite Zplus_mod_idemp_l. f_equal. ring.
Qed.

Lemma wrap_add_r (a b : Z) : Int64.wrap (a + Int64.wrap b) = Int64.wrap (a + b).
Proof. now rewrite (Z.add_comm a), wrap_add_l, (Z.add_comm b). Qed.

(** The two wrapped sums of the shift amount to one wrap of the exact sum. *)
Lemma shift_int64_wrap (v m : Z) :
  Int64.add (Int64.add v (Int64.abs m)) 1 = Int64.wrap (v + Z.abs m + 1).
Proof.
  unfold Int64.add, Int64.abs. rewrite wrap_add_l.
  replace (v + Int64.wrap (Z.abs m) + 1) with (v + 1 + Int64.wrap (Z.abs m)) by ring.
  rewrite wrap_add_r. f_equal. ring.
Qed.

Lemma fold_left_min_spec (l : list Z) (v : Z) :
  let m := fold_left Z.min l v in
  m <= v /\ Forall (fun x => m <= x) l /\ (m = v \/ m ∈ l).
Proof.
  revert v. induction l as [ | x l IH]; intros v; simpl.
  - split; [lia | ]. split; [constructor | now left].
  - destruct (IH (Z.min v x)) as (Hle & Hall & Hin).
    split; [lia | ]. split.
    + constructor; [lia | exact Hall].
    + destruct Hin as [Heq | Hin].
      * destruct (Z.min_spec v x) as [[_ Hm] | [_ Hm]]; rewrite Hm in Heq |- *.
        -- now left.
        -- right. rewrite Heq. apply elem_of_cons. now left.
      * right. apply elem_of_cons. now right.
Qed.

(** [y.min()] is an entry of the series and a lower bound of its entries. *)
Lemma int_min_spec (l : list Z) (m : Z) :
  Series.int_min l = Some m -> m ∈ l /\ Forall (fun x => m <= x) l.
Proof.
  destruct l as [ | v vs]; simpl; [discriminate | ]. intros [= <-].
  destruct (fold_left_min_spec vs v) as (Hle & Hall & Hin). split.
  - apply elem_of_cons. destruct Hin as [-> | Hin]; [now left | now right].
  - now constructor.
Qed.

Lemma int_min_some (l : list Z) :
  Series.any_le_zero (Ints l) = true -> exists m, Series.int_min l = Some m.
Proof. destruct l; simpl; [discriminate | eauto]. Qed.

Lemma filter_map_comm {A B : Type} (f : A -> B) (p : B -> bool) (l : list A) :
  map f (List.filter (fun x => p (f x)) l) = List.filter p (map f l).
Proof.
  induction l as [ | x l IH]; simpl; [reflexivity | ].
  destruct (p (f x)); simpl; now rewrite IH.
Qed.

(** What the normality test sees of [y[y < t]]: the float64 values of [y]
    that are strictly below [t]. *)
Lemma below_to_float64 (y : Numeric) (t : float) :
  Series.to_float64 (Series.below y t)
  = List.filter (fun v => PrimFloat.ltb v t) (Series.to_float64 y).
Proof.
  destruct y as [l | l]; simpl; [ | reflexivity].
  apply (filter_map_comm Int64.to_float (fun v => PrimFloat.ltb v t)).
Qed.

(** On an int64 series that the shift does not make wrap around, every
    shifted value is strictly positive. *)
Lemma shift_int64_positive (l : list Z) :
  Series.any_le_zero (Ints l) = true ->
  Spec.shift_fits l ->
  Spec.all_positive (Series.shift (Ints l)).
Proof.
  intros Hany [Hrange Hfit].
  destruct (int_min_some l Hany) as [m Hm].
  destruct (Hfit m Hm) as [Hmin Hmax].
  destruct (int_min_spec l m Hm) as [Hin Hlow].
  simpl. rewrite Hm. simpl.
  rewrite Forall_forall in Hrange, Hmax, Hlow.
  apply Forall_forall. intros w Hw.
  apply list_elem_of_fmap in Hw as (v & -> & Hv).
  rewrite shift_int64_wrap.
  specialize (Hrange v Hv). specialize (Hmax v Hv). specialize (Hlow v Hv).
  simpl in Hmax.
  unfold Int64.in_range, Int64.min_int, Int64.max_int in *.
  rewrite wrap_in_range; unfold Int64.in_range, Int64.min_int, Int64.max_int; lia.
Qed.

Lemma dropna_finite (l : list float) :
  Spec.all_finite l -> List.filter (fun v => negb (PrimFloat.is_nan v)) l = l.
Proof.
  induction 1 as [ | v l Hv _ IH]; simpl; [reflexivity | ].
  unfold PrimFloat.is_finite in Hv.
  rewrite negb_true_iff, orb_false_iff in Hv.
  destruct Hv as [-> _]. simpl. now rewrite IH.
Qed.

Lemma fmin_spec (a b : float) :
  PrimFloat.is_finite a = true -> PrimFloat.is_finite b = true ->
  PrimFloat.is_finite (Series.fmin a b) = true
  /\ Binary64.scaled (Prim2SF (Series.fmin a b)) <= Binary64.scaled (Prim2SF a)
  /\ Binary64.scaled (Prim2SF (Series.fmin a b)) <= Binary64.scaled (Prim2SF b).
Proof.
  intros Fa Fb. unfold Series.fmin.
  destruct (PrimFloat.ltb b a) eqn:Hlt.
  - apply (ltb_scaled b a Fb Fa) in Hlt. repeat split; [exact Fb | lia | lia].
  - assert (~ Binary64.scaled (Prim2SF b) < Binary64.scaled (Prim2SF a)).
    { intros Hc. apply (ltb_scaled b a Fb Fa) in Hc. congruence. }
    repeat split; [exact Fa | lia | lia].
Qed.

Lemma fold_fmin_spec (vs : list float) :
  forall v,
    PrimFloat.is_finite v = true -> Spec.all_finite vs ->
    let r := fold_left Series.fmin vs v in
    PrimFloat.is_finite r = true
    /\ Binary64.scaled (Prim2SF r) <= Binary64.scaled (Prim2SF v)
    /\ Forall (fun x => Binary64.scaled (Prim2SF r) <= Binary64.scaled (Prim2SF x)) vs.
Proof.
  induction vs as [ | x vs IH]; intros v Fv Fvs; simpl.
  - repeat split; [exact Fv | lia | constructor].
  - apply Forall_cons in Fvs as [Fx Fvs].
    destruct (fmin_spec v x Fv Fx) as (Ff & Hv & Hx).
    destruct (IH (Series.fmin v x) Ff Fvs) as (Fr & Hr & Hall).
    repeat split; [exact Fr | lia | ]. constructor; [lia | exact Hall].
Qed.

(** On a finite float64 series [y.min()] is finite and at most every entry. *)
Lemma float_min_spec (l : list float) :
  Spec.all_finite l -> l <> [] ->
  PrimFloat.is_finite (Series.float_min l) = true
  /\ Forall (fun x => PrimFloat.leb (Series.float_min l) x = true) l.
Proof.
  intros Fl Hne. unfold Series.float_min. rewrite (dropna_finite l Fl).
  destruct l as [ | v vs]; [congruence | ].
  pose proof Fl as Fl'. apply Forall_cons in Fl' as [Fv Fvs].
  destruct (fold_fmin_spec vs v Fv Fvs) as (Fr & Hv & Hall).
  split; [exact Fr | ].
  constructor; [now apply (leb_scaled _ _ Fr Fv) | ].
  rewrite Forall_forall in Hall, Fvs |- *. intros x Hx.
  apply (leb_scaled _ _ Fr (Fvs x Hx)). now apply Hall.
Qed.

(** On a finite float64 series every shifted value is strictly positive
    (possibly [+inf] when the sum overflows). *)
Lemma shift_float64_positive (l : list float) :
  Series.any_le_zero (Floats l) = true ->
  Spec.all_finite l ->
  Spec.all_positive (Series.shift (Floats l)).
Proof.
  intros Hany Fl. simpl in Hany.
  apply existsb_exists in Hany as (z & Hz & Hz0).
  assert (Hne : l <> []) by (intros ->; contradiction).
  destruct (float_min_spec l Fl Hne) as [Fm Hlow].
  apply list_elem_of_In in Hz.
  rewrite Forall_forall in Hlow. unfold Spec.all_finite in Fl. rewrite Forall_forall in Fl.
  assert (Hm0 : PrimFloat.leb (Series.float_min l) 0 = true).
  { apply (leb_scaled (Series.float_min l) 0%float Fm eq_refl).
    pose proof (proj1 (leb_scaled _ _ Fm (Fl z Hz)) (Hlow z Hz)).
    pose proof (proj1 (leb_scaled z 0%float (Fl z Hz) eq_refl) Hz0). lia. }
  simpl. apply Forall_forall. intros w Hw.
  apply list_elem_of_fmap in Hw as (x & -> & Hx).
  apply shift_value_positive; auto.
Qed.

(** ** [TargetDistributionDataCheck.validate] *)

Section ValidateProperties.

Import TargetDistributionDataCheck.

Context `{Collaborators}.

Implicit Types (self : TargetDistributionDataCheck.t) (X y : PyObj) (log : list Call).

Lemma supported_decide (p : ProblemTypes) :
  supported p <-> bool_decide (p ∈ [REGRESSION; TIME_SERIES_REGRESSION]) = true.
Proof.
  unfold supported. rewrite bool_decide_eq_true, !elem_of_cons, elem_of_nil. tauto.
Qed.

Lemma analyse_oblivious self (results : Results) (n : Numeric) :
  oblivious (analyse self results n).
Proof.
  unfold analyse.
  apply oblivious_bind; [apply oblivious_call | intros r].
  apply oblivious_if; [apply oblivious_ret | ].
  apply oblivious_bind; [apply oblivious_call | intros og].
  apply oblivious_bind; [apply oblivious_call | intros lg].
  apply oblivious_if; apply oblivious_ret.
Qed.

Lemma validate_oblivious self X y : oblivious (validate self X y).
Proof.
  unfold validate.
  apply oblivious_if; [apply oblivious_ret | ].
  apply oblivious_if; [apply oblivious_ret | ].
  apply oblivious_bind; [apply oblivious_call | intros wy].
  apply oblivious_if; [apply oblivious_ret | ].
  destruct (numeric wy); [apply analyse_oblivious | apply oblivious_raise].
Qed.

(** The run of [validate] on a target that is not [None], under a supported
    problem type, once type inference has returned. *)
Lemma validate_inferred self X y log (wy : WwSeries) :
  is_None y = false ->
  supported (problem_type self) ->
  infer_feature_types y = Return wy ->
  validate self X y log =
    (if negb (bool_decide (type_string wy ∈ [Integer_type_string; Double_type_string])) then
       ret (append_error empty_results
              (DataCheckError
                 ("Target is unsupported " +:+ type_string wy
                  +:+ " type. Valid Woodwork logical types include: "
                  +:+ String.concat ", " [Integer_type_string; Double_type_string])
                 (name self) TARGET_UNSUPPORTED_TYPE
                 {[ "unsupported_type" := VStr (type_string wy) ]}))
     else
       match numeric wy with
       | Some n => analyse self empty_results n
       | None => raise (mkExc "TypeError" "'<=' not supported on this dtype")
       end) (log ++ [Call_infer_feature_types y]).
Proof.
  intros Hy Hp Hi. unfold validate. rewrite Hy.
  apply supported_decide in Hp. rewrite Hp. cbn [negb]. cbv iota.
  unfold bind at 1, call at 1. rewrite Hi. reflexivity.
Qed.

Lemma validate_infer_raises self X y log (e : PyExc) :
  is_None y = false ->
  supported (problem_type self) ->
  infer_feature_types y = Raise e ->
  validate self X y log = (Raise e, log ++ [Call_infer_feature_types y]).
Proof.
  intros Hy Hp Hi. unfold validate. rewrite Hy.
  apply supported_decide in Hp. rewrite Hp. cbn [negb]. cbv iota.
  unfold bind at 1, call at 1. now rewrite Hi.
Qed.

Lemma numeric_type_string (wy : WwSeries) (n : Numeric) :
  numeric wy = Some n ->
  bool_decide (type_string wy ∈ [Integer_type_string; Double_type_string]) = true.
Proof.
  destruct wy; simpl; intros Hn; try discriminate; now vm_compute.
Qed.

Lemma type_string_numeric (wy : WwSeries) :
  bool_decide (type_string wy ∈ [Integer_type_string; Double_type_string]) = true ->
  exists n, numeric wy = Some n.
Proof.
  destruct wy as [l | l | ts data other]; simpl; eauto.
  intros Hin. apply bool_decide_eq_true in Hin.
  apply bool_decide_eq_true in other.
  rewrite !elem_of_cons, elem_of_nil in Hin. tauto.
Qed.

(** The run of [validate] on a numeric target, up to the analysis. *)
Lemma validate_numeric self X y log (wy : WwSeries) (n : Numeric) :
  is_None y = false ->
  supported (problem_type self) ->
  infer_feature_types y = Return wy ->
  numeric wy = Some n ->
  validate self X y log = analyse self empty_results n (log ++ [Call_infer_feature_types y]).
Proof.
  intros Hy Hp Hi Hn.
  rewrite (validate_inferred self X y log wy Hy Hp Hi).
  rewrite (numeric_type_string wy n Hn), Hn. reflexivity.
Qed.

(** C5. A [None] target gives exactly one error, [TARGET_IS_NONE] with an
    empty details mapping, and no warning or action; the check comes first:
    it holds under every problem type, and no collaborator is called. *)
Theorem validate_target_is_none self X log :
  exists e,
    validate self X PyNone log
      = (Return {| warnings := []; errors := [e]; actions := [] |}, log)
    /\ code e = TARGET_IS_NONE
    /\ level e = ERROR
    /\ details e = ∅.
Proof.
  eexists. split; [reflexivity | ]. repeat split.
Qed.

(** C6. A target that is not [None] under a problem type other than
    regression and time-series regression gives exactly one error,
    [TARGET_UNSUPPORTED_PROBLEM_TYPE], whose details hold the offending
    problem type, and no warning or action; no collaborator is called. *)
Theorem validate_unsupported_problem_type self X y log :
  y <> PyNone ->
  problem_type self <> REGRESSION ->
  problem_type self <> TIME_SERIES_REGRESSION ->
  exists e,
    validate self X y log
      = (Return {| warnings := []; errors := [e]; actions := [] |}, log)
    /\ code e = TARGET_UNSUPPORTED_PROBLEM_TYPE
    /\ level e = ERROR
    /\ details e = {[ "unsupported_problem_type" := VProblemType (problem_type self) ]}
    /\ details e !! "unsupported_problem_type" = Some (VProblemType (problem_type self)).
Proof.
  intros Hy Hr Ht.
  assert (Hn : is_None y = false) by (destruct y; simpl; congruence).
  assert (Hp : bool_decide (problem_type self ∈ [REGRESSION; TIME_SERIES_REGRESSION]) = false).
  { apply bool_decide_eq_false. rewrite !elem_of_cons, elem_of_nil. tauto. }
  unfold validate. rewrite Hn, Hp. cbn [negb]. cbv iota.
  eexists. split; [reflexivity | ]. simpl. repeat split.
Qed.

(** C4. A numeric regression target whose raw p-value is at least 0.05
    gives the empty result: no error, no warning, no action.  Nothing
    happens after the raw normality test: the calls made are the type
    inference and that one test. *)
Theorem validate_normal_target self X y log (wy : WwSeries) (n : Numeric) (r : ShapiroResult) :
  y <> PyNone ->
  supported (problem_type self) ->
  infer_feature_types y = Return wy ->
  numeric wy = Some n ->
  shapiro (Series.to_float64 n) = Return r ->
  PrimFloat.leb alpha (pvalue r) = true ->
  validate self X y log
    = (Return {| warnings := []; errors := []; actions := [] |},
       log ++ [Call_infer_feature_types y; Call_shapiro (Series.to_float64 n)]).
Proof.
  intros Hy Hp Hi Hn Hs Hle.
  assert (Hnone : is_None y = false) by (destruct y; simpl; congruence).
  rewrite (validate_numeric self X y log wy n Hnone Hp Hi Hn).
  unfold analyse, bind at 1, call at 1. rewrite Hs, Hle.
  unfold ret, empty_results. now rewrite <- app_assoc.
Qed.

(** The run of [validate] on a numeric target whose raw p-value is not at
    least 0.05, when the two later normality tests return. *)
Lemma validate_analysed self X y log (wy : WwSeries) (n : Numeric) (r og lg : ShapiroResult) :
  is_None y = false ->
  supported (problem_type self) ->
  infer_feature_types y = Return wy ->
  numeric wy = Some n ->
  shapiro (Series.to_float64 n) = Return r ->
  PrimFloat.leb alpha (pvalue r) = false ->
  shapiro (Series.to_float64 (trimmed n)) = Return og ->
  shapiro (map np_log (Series.to_float64 (trimmed n))) = Return lg ->
  validate self X y log =
    (Return (if PrimFloat.leb (pvalue og) (pvalue lg) then
               {| warnings := [lognormal_warning self og];
                  errors := [];
                  actions := [transform_target_action] |}
             else empty_results),
     log ++ analysis_calls y n).
Proof.
  intros Hy Hp Hi Hn Hr Hlt Hog Hlg.
  rewrite (validate_numeric self X y log wy n Hy Hp Hi Hn).
  unfold analyse, bind at 1, call at 1. rewrite Hr, Hlt.
  unfold bind at 1, call at 1. rewrite Hog.
  unfold bind at 1, call at 1. rewrite Hlg.
  unfold analysis_calls.
  replace (log ++ [_; _; _; _]) with ((((log ++ [Call_infer_feature_types y])
    ++ [Call_shapiro (Series.to_float64 n)])
    ++ [Call_shapiro (Series.to_float64 (trimmed n))])
    ++ [Call_shapiro (map np_log (Series.to_float64 (trimmed n)))])
    by now rewrite <- !app_assoc.
  now destruct (PrimFloat.leb (pvalue og) (pvalue lg)).
Qed.

(** C1. For a numeric regression target whose raw p-value is below 0.05,
    [validate] appends the [TARGET_LOGNORMAL_DISTRIBUTION] warning and the
    [TRANSFORM_TARGET] action if and only if the p-value of the logarithm of
    the trimmed series is greater than or equal to the p-value of the
    trimmed series itself.  The details of the warning are the rounded
    statistic and p-value of the test on the trimmed series, joined by a
    slash; the metadata of the action are [column: None], [is_target: True]
    and [transformation_strategy: "lognormal"]. *)
Theorem validate_lognormal_iff self X y log (wy : WwSeries) (n : Numeric)
    (r og lg : ShapiroResult) :
  y <> PyNone ->
  supported (problem_type self) ->
  infer_feature_types y = Return wy ->
  numeric wy = Some n ->
  shapiro (Series.to_float64 n) = Return r ->
  PrimFloat.ltb (pvalue r) alpha = true ->
  shapiro (Series.to_float64 (trimmed n)) = Return og ->
  shapiro (map np_log (Series.to_float64 (trimmed n))) = Return lg ->
  exists res,
    validate self X y log = (Return res, log ++ analysis_calls y n)
    /\ errors res = []
    /\ ((warnings res <> [] /\ actions res <> [])
        <-> PrimFloat.leb (pvalue og) (pvalue lg) = true)
    /\ (PrimFloat.leb (pvalue og) (pvalue lg) = true ->
        exists w a,
          warnings res = [w] /\ actions res = [a]
          /\ code w = TARGET_LOGNORMAL_DISTRIBUTION
          /\ level w = WARNING
          /\ details w =
               {[ "shapiro-statistic/pvalue" :=
                    VStr (py_format (py_round (statistic og) 3) +:+ "/"
                          +:+ py_format (py_round (pvalue og) 3)) ]}
          /\ action_code a = TRANSFORM_TARGET
          /\ metadata a =
               list_to_map [("transformation_strategy", VStr "lognormal");
                            ("is_target", VBool true);
                            ("column", VNone)])
    /\ (PrimFloat.leb (pvalue og) (pvalue lg) = false ->
        warnings res = [] /\ actions res = []).
Proof.
  intros Hy Hp Hi Hn Hr Hlt Hog Hlg.
  assert (Hnone : is_None y = false) by (destruct y; simpl; congruence).
  apply ltb_leb_false in Hlt.
  eexists. split.
  { exact (validate_analysed self X y log wy n r og lg Hnone Hp Hi Hn Hr Hlt Hog Hlg). }
  destruct (PrimFloat.leb (pvalue og) (pvalue lg)); simpl.
  - split; [reflexivity | ]. split; [split; [reflexivity | intros _; split; discriminate] | ].
    split; [ | discriminate].
    intros _. exists (lognormal_warning self og), transform_target_action.
    repeat split.
  - split; [reflexivity | ]. split; [split; [intros [Hw _]; now contradiction Hw | discriminate] | ].
    split; [discriminate | ]. intros _. now split.
Qed.

(** What a run of the analysis can be: it stops at the first normality
    test that raises, returns the untouched results when the raw p-value is
    at least 0.05, and otherwise goes through the three tests. *)
Lemma analyse_cases self (results : Results) (n : Numeric) log :
  let raw := Series.to_float64 n in
  let kept := Series.to_float64 (trimmed n) in
  (exists e, shapiro raw = Raise e
     /\ analyse self results n log = (Raise e, log ++ [Call_shapiro raw]))
  \/ (exists r, shapiro raw = Return r /\ PrimFloat.leb alpha (pvalue r) = true
     /\ analyse self results n log = (Return results, log ++ [Call_shapiro raw]))
  \/ (exists r e, shapiro raw = Return r /\ PrimFloat.leb alpha (pvalue r) = false
     /\ shapiro kept = Raise e
     /\ analyse self results n log
        = (Raise e, log ++ [Call_shapiro raw; Call_shapiro kept]))
  \/ (exists r og e, shapiro raw = Return r /\ PrimFloat.leb alpha (pvalue r) = false
     /\ shapiro kept = Return og /\ shapiro (map np_log kept) = Raise e
     /\ analyse self results n log
        = (Raise e, log ++ [Call_shapiro raw; Call_shapiro kept;
                            Call_shapiro (map np_log kept)]))
  \/ (exists r og lg, shapiro raw = Return r /\ PrimFloat.leb alpha (pvalue r) = false
     /\ shapiro kept = Return og /\ shapiro (map np_log kept) = Return lg
     /\ analyse self results n log
        = (Return (if PrimFloat.leb (pvalue og) (pvalue lg) then
                     append_action
                       (append_warning results (lognormal_warning self og))
                       transform_target_action
                   else results),
           log ++ [Call_shapiro raw; Call_shapiro kept; Call_shapiro (map np_log kept)])).
Proof.
  intros raw kept. unfold analyse, bind, call, ret. fold raw. fold kept.
  destruct (shapiro raw) as [r | e].
  2:{ left. exists e. now split. }
  right. destruct (PrimFloat.leb alpha (pvalue r)) eqn:Hle.
  { left. exists r. now rewrite Hle. }
  right. destruct (shapiro kept) as [og | e].
  2:{ left. exists r, e. rewrite Hle, <- app_assoc. now repeat split. }
  right. destruct (shapiro (map np_log kept)) as [lg | e].
  2:{ left. exists r, og, e. rewrite Hle, <- !app_assoc. now repeat split. }
  right. exists r, og, lg. rewrite Hle, <- !app_assoc.
  repeat split. now destruct (PrimFloat.leb (pvalue og) (pvalue lg)).
Qed.

(** The analysis never touches the errors. *)
Lemma analyse_errors self (results res : Results) (n : Numeric) log log' :
  analyse self results n log = (Return res, log') -> errors res = errors results.
Proof.
  intros Hrun.
  destruct (analyse_cases self results n log)
    as [(e & _ & Hc) | [(r & _ & _ & Hc) | [(r & e & _ & _ & _ & Hc)
       | [(r & og & e & _ & _ & _ & _ & Hc) | (r & og & lg & _ & _ & _ & _ & Hc)]]]];
    rewrite Hc in Hrun; inversion Hrun; subst; try reflexivity.
  now destruct (PrimFloat.leb (pvalue og) (pvalue lg)).
Qed.

(** C8. Errors exclude warnings and actions: a result with an error has
    exactly that one error, no warning and no action, and [validate]
    returned it at once, without running a normality test: the only call it
    can have made is the type inference. *)
Theorem validate_errors_exclusive self X y log (res : Results) log' :
  validate self X y log = (Return res, log') ->
  errors res <> [] ->
  warnings res = [] /\ actions res = []
  /\ (exists e, errors res = [e])
  /\ (log' = log \/ log' = log ++ [Call_infer_feature_types y]).
Proof.
  unfold validate.
  destruct (is_None y).
  { intros Hrun _. inversion Hrun; subst. simpl. eauto 6. }
  destruct (bool_decide (problem_type self ∈ [REGRESSION; TIME_SERIES_REGRESSION])); cbn [negb]; cbv iota.
  2:{ intros Hrun _. inversion Hrun; subst. simpl. eauto 6. }
  unfold bind at 1, call at 1.
  destruct (infer_feature_types y) as [wy | e]; [ | discriminate].
  destruct (bool_decide (type_string wy ∈ [Integer_type_string; Double_type_string])); cbn [negb]; cbv iota.
  2:{ intros Hrun _. inversion Hrun; subst. simpl. eauto 6. }
  destruct (numeric wy) as [n | ]; [ | discriminate].
  intros Hrun Herr. apply analyse_errors in Hrun. now rewrite Hrun in Herr.
Qed.

(** C9. [validate] is a function of the check and of the target alone: the
    features have no influence on the computation, and neither its outcome
    nor the calls it makes depend on what was called before. *)
Theorem validate_ignores_features self X1 X2 y :
  validate self X1 y = validate self X2 y
  /\ (forall log1 log2,
        fst (validate self X1 y log1) = fst (validate self X2 y log2))
  /\ (forall log,
        snd (validate self X1 y log) = log ++ snd (run (validate self X2 y))).
Proof.
  split; [reflexivity | ]. split.
  - intros log1 log2.
    now rewrite (validate_oblivious self X1 y log1), (validate_oblivious self X2 y log2).
  - intros log. now rewrite (validate_oblivious self X1 y log).
Qed.

(** C7 (amended). A target that is not [None], under a supported problem
    type, whose inferred logical type is neither Integer nor Double gives
    exactly one error, [TARGET_UNSUPPORTED_TYPE], and no warning or action.
    The details of the error hold the detected type and nothing else; the
    allowed types are listed in the message. *)
Theorem validate_unsupported_type self X y log (wy : WwSeries) :
  y <> PyNone ->
  supported (problem_type self) ->
  infer_feature_types y = Return wy ->
  type_string wy <> Integer_type_string ->
  type_string wy <> Double_type_string ->
  exists e,
    validate self X y log
      = (Return {| warnings := []; errors := [e]; actions := [] |},
         log ++ [Call_infer_feature_types y])
    /\ code e = TARGET_UNSUPPORTED_TYPE
    /\ level e = ERROR
    /\ details e = {[ "unsupported_type" := VStr (type_string wy) ]}
    /\ message e = "Target is unsupported " +:+ type_string wy
                   +:+ " type. Valid Woodwork logical types include: integer, double".
Proof.
  intros Hy Hp Hi Hint Hdbl.
  assert (Hnone : is_None y = false) by (destruct y; simpl; congruence).
  rewrite (validate_inferred self X y log wy Hnone Hp Hi).
  assert (Hts : bool_decide (type_string wy ∈ [Integer_type_string; Double_type_string]) = false).
  { apply bool_decide_eq_false. rewrite !elem_of_cons, elem_of_nil. tauto. }
  rewrite Hts. cbn [negb]. cbv iota.
  eexists. split; [reflexivity | ]. repeat split.
Qed.

(** C3 (amended). [validate] has no exception handler and raises nothing
    of its own.  The three validation failures are returned, as one error
    record each: a [None] target, an unsupported problem type, a logical
    type that is not numeric.  An exception raised by the type inference or
    by one of the three normality tests leaves [validate] unchanged, and is
    the last thing that happened: no later call is made.  Conversely an
    exception that leaves [validate] was raised by the call it made last,
    and when none of the calls made raises, [validate] returns: the shift,
    the trimming and the logarithm raise nothing, whatever the target. *)
Theorem validate_raises_only_what_a_call_raised self X y log :
  (forall e, fst (validate self X y log) = Raise e ->
     (infer_feature_types y = Raise e
      /\ snd (validate self X y log) = log ++ [Call_infer_feature_types y])
     \/ (exists calls x,
          snd (validate self X y log) = log ++ calls ++ [Call_shapiro x]
          /\ shapiro x = Raise e))
  /\ (y = PyNone \/ ~ supported (problem_type self)
      \/ (exists wy, infer_feature_types y = Return wy /\ numeric wy = None) ->
      returns (fst (validate self X y log)))
  /\ (returns (infer_feature_types y) ->
      (forall x, Call_shapiro x ∈ snd (validate self X y log) -> returns (shapiro x)) ->
      returns (fst (validate self X y log)))
  /\ (y = PyNone ->
      exists err,
        validate self X y log
          = (Return {| warnings := []; errors := [err]; actions := [] |}, log)
        /\ code err = TARGET_IS_NONE)
  /\ (y <> PyNone -> ~ supported (problem_type self) ->
      exists err,
        validate self X y log
          = (Return {| warnings := []; errors := [err]; actions := [] |}, log)
        /\ code err = TARGET_UNSUPPORTED_PROBLEM_TYPE)
  /\ (forall wy, y <> PyNone -> supported (problem_type self) ->
      infer_feature_types y = Return wy -> numeric wy = None ->
      exists err,
        validate self X y log
          = (Return {| warnings := []; errors := [err]; actions := [] |},
             log ++ [Call_infer_feature_types y])
        /\ code err = TARGET_UNSUPPORTED_TYPE)
  /\ (forall e, y <> PyNone -> supported (problem_type self) ->
      infer_feature_types y = Raise e ->
      validate self X y log = (Raise e, log ++ [Call_infer_feature_types y]))
  /\ (forall wy n e, y <> PyNone -> supported (problem_type self) ->
      infer_feature_types y = Return wy -> numeric wy = Some n ->
      (shapiro (Series.to_float64 n) = Raise e ->
       validate self X y log
         = (Raise e, log ++ [Call_infer_feature_types y;
                             Call_shapiro (Series.to_float64 n)]))
      /\ (forall r, shapiro (Series.to_float64 n) = Return r ->
          PrimFloat.leb alpha (pvalue r) = false ->
          (shapiro (Series.to_float64 (trimmed n)) = Raise e ->
           validate self X y log
             = (Raise e, log ++ [Call_infer_feature_types y;
                                 Call_shapiro (Series.to_float64 n);
                                 Call_shapiro (Series.to_float64 (trimmed n))]))
          /\ (forall og, shapiro (Series.to_float64 (trimmed n)) = Return og ->
              shapiro (map np_log (Series.to_float64 (trimmed n))) = Raise e ->
              validate self X y log = (Raise e, log ++ analysis_calls y n)))).
Proof.
  assert (Hraise : forall e, fst (validate self X y log) = Raise e ->
     (infer_feature_types y = Raise e
      /\ snd (validate self X y log) = log ++ [Call_infer_feature_types y])
     \/ (exists calls x,
          snd (validate self X y log) = log ++ calls ++ [Call_shapiro x]
          /\ shapiro x = Raise e)).
  { intros e.
    destruct (is_None y) eqn:Hy.
    { unfold validate. rewrite Hy. discriminate. }
    destruct (bool_decide (problem_type self ∈ [REGRESSION; TIME_SERIES_REGRESSION])) eqn:Hp.
    2:{ unfold validate. rewrite Hy, Hp. discriminate. }
    apply supported_decide in Hp.
    destruct (infer_feature_types y) as [wy | e0] eqn:Hi.
    2:{ rewrite (validate_infer_raises self X y log e0 Hy Hp Hi). intros [= ->]. now left. }
    rewrite (validate_inferred self X y log wy Hy Hp Hi).
    destruct (bool_decide (type_string wy ∈ _)) eqn:Hts; cbn [negb]; cbv iota; [ | discriminate].
    destruct (type_string_numeric wy Hts) as [n Hn]. rewrite Hn. cbv beta iota.
    set (log1 := log ++ [Call_infer_feature_types y]).
    intros Hrun. right.
    destruct (analyse_cases self empty_results n log1)
      as [(e1 & Hs & Hc) | [(r & _ & _ & Hc) | [(r & e1 & _ & _ & Hs & Hc)
         | [(r & og & e1 & _ & _ & _ & Hs & Hc) | (r & og & lg & _ & _ & _ & _ & Hc)]]]];
      rewrite Hc in Hrun |- *; simpl in Hrun; try discriminate;
      injection Hrun as ->; simpl snd; unfold log1.
    - exists [Call_infer_feature_types y]. eexists. split; [ | exact Hs].
      now rewrite <- app_assoc.
    - exists [Call_infer_feature_types y; Call_shapiro (Series.to_float64 n)].
      eexists. split; [ | exact Hs]. now rewrite <- !app_assoc.
    - exists [Call_infer_feature_types y; Call_shapiro (Series.to_float64 n);
              Call_shapiro (Series.to_float64 (trimmed n))].
      eexists. split; [ | exact Hs]. now rewrite <- !app_assoc. }
  assert (Hnone : y <> PyNone -> is_None y = false)
    by (destruct y; simpl; congruence).
  split; [exact Hraise | ]. split; [ | split]; [ | | split; [ | split; [ | split; [ | split]]]].
  - intros [-> | [Hp | (wy & Hi & Hn)]].
    + now eexists.
    + unfold validate. destruct (is_None y); [now eexists | ].
      destruct (bool_decide (problem_type self ∈ _)) eqn:Hd; cbn [negb]; cbv iota;
        [ | now eexists].
      apply supported_decide in Hd. contradiction.
    + unfold validate. destruct (is_None y); [now eexists | ].
      destruct (bool_decide (problem_type self ∈ _)); cbn [negb]; cbv iota; [ | now eexists].
      unfold bind at 1, call at 1. rewrite Hi.
      destruct (bool_decide (type_string wy ∈ _)) eqn:Hts; cbn [negb]; cbv iota;
        [ | now eexists].
      destruct (type_string_numeric wy Hts) as [n Hn']. congruence.
  - intros [wy Hi] Hcalls.
    destruct (fst (validate self X y log)) as [res | e] eqn:Hout; [now eexists | ].
    destruct (Hraise e eq_refl) as [[Hi' _] | (calls & x & Hsnd & Hs)].
    + congruence.
    + destruct (Hcalls x) as [v Hv]; [ | congruence].
      rewrite Hsnd, !elem_of_app, list_elem_of_singleton. auto.
  - intros ->. eexists. split; reflexivity.
  - intros Hy Hp. unfold validate. rewrite (Hnone Hy).
    destruct (bool_decide (problem_type self ∈ _)) eqn:Hd; cbn [negb]; cbv iota.
    + apply supported_decide in Hd. contradiction.
    + eexists. split; reflexivity.
  - intros wy Hy Hp Hi Hn.
    rewrite (validate_inferred self X y log wy (Hnone Hy) Hp Hi).
    destruct (bool_decide (type_string wy ∈ _)) eqn:Hts; cbn [negb]; cbv iota.
    + destruct (type_string_numeric wy Hts) as [n Hn']. congruence.
    + eexists. split; reflexivity.
  - intros e Hy Hp Hi. exact (validate_infer_raises self X y log e (Hnone Hy) Hp Hi).
  - intros wy n e Hy Hp Hi Hn.
    rewrite (validate_numeric self X y log wy n (Hnone Hy) Hp Hi Hn).
    split; [ | intros r Hr Hle; split; [ | intros og Hog]]; intros Hs;
      unfold analyse, bind at 1, call at 1.
    + rewrite Hs. now rewrite <- app_assoc.
    + rewrite Hr, Hle. unfold bind at 1, call at 1. rewrite Hs.
      now rewrite <- !app_assoc.
    + rewrite Hr, Hle. unfold bind at 1, call at 1. rewrite Hog.
      unfold bind at 1, call at 1. rewrite Hs.
      unfold analysis_calls. now rewrite <- !app_assoc.
Qed.

(** The calls of [validate] on a numeric target whose raw p-value is not
    at least 0.05 begin with the type inference, the raw normality test and
    the normality test on the trimmed series. *)
Lemma validate_tests_trimmed self X y log (wy : WwSeries) (n : Numeric) (r : ShapiroResult) :
  is_None y = false ->
  supported (problem_type self) ->
  infer_feature_types y = Return wy ->
  numeric wy = Some n ->
  shapiro (Series.to_float64 n) = Return r ->
  PrimFloat.leb alpha (pvalue r) = false ->
  exists rest,
    snd (validate self X y log)
    = log ++ [Call_infer_feature_types y;
              Call_shapiro (Series.to_float64 n);
              Call_shapiro (Series.to_float64 (trimmed n))] ++ rest.
Proof.
  intros Hy Hp Hi Hn Hr Hle.
  rewrite (validate_numeric self X y log wy n Hy Hp Hi Hn).
  set (log1 := log ++ [Call_infer_feature_types y]).
  destruct (analyse_cases self empty_results n log1)
    as [(e1 & Hs & Hc) | [(r1 & Hs & Hle1 & Hc) | [(r1 & e1 & _ & _ & Hs & Hc)
       | [(r1 & og & e1 & _ & _ & _ & Hs & Hc) | (r1 & og & lg & _ & _ & _ & _ & Hc)]]]];
    try congruence; rewrite Hc; simpl snd; unfold log1; rewrite <- app_assoc; simpl.
  - now exists [].
  - now exists [Call_shapiro (map np_log (Series.to_float64 (trimmed n)))].
  - now exists [Call_shapiro (map np_log (Series.to_float64 (trimmed n)))].
Qed.

(** C2 (amended). For a numeric regression target whose raw p-value is
    below 0.05, the series the later normality tests look at is computed as
    follows.  If some value is at most 0, [abs(min)] and then 1 are added to
    every value, in the arithmetic of the dtype: on int64 the result is the
    exact sum wrapped to 64 bits; otherwise the target is used unchanged.
    Then exactly the values strictly below the threshold are kept, where
    the threshold is the mean of the shifted series plus 3 times the
    standard deviation of the original target rounded to 3 decimals: every
    value greater than or equal to the threshold is dropped, and apart
    from NaN nothing else is.  On an
    int64 target that the shift does not make wrap around, and on a float64
    target without NaN and infinities, every shifted value is strictly
    positive. *)
Theorem validate_prepared_series self X y log (wy : WwSeries) (n : Numeric) (r : ShapiroResult) :
  y <> PyNone ->
  supported (problem_type self) ->
  infer_feature_types y = Return wy ->
  numeric wy = Some n ->
  shapiro (Series.to_float64 n) = Return r ->
  PrimFloat.ltb (pvalue r) alpha = true ->
  let t := (pd_mean (Series.to_float64 (shifted n))
            + 3 * py_round (pd_std (Series.to_float64 n)) 3)%float in
  (exists rest,
     snd (validate self X y log)
     = log ++ [Call_infer_feature_types y;
               Call_shapiro (Series.to_float64 n);
               Call_shapiro (Series.to_float64 (trimmed n))] ++ rest)
  /\ Series.to_float64 (trimmed n)
     = List.filter (fun v => PrimFloat.ltb v t) (Series.to_float64 (shifted n))
  /\ Forall (fun v => PrimFloat.leb t v = false) (Series.to_float64 (trimmed n))
  /\ (forall v, v ∈ Series.to_float64 (shifted n) ->
      PrimFloat.is_nan v = false -> PrimFloat.is_nan t = false ->
      PrimFloat.leb t v = false -> v ∈ Series.to_float64 (trimmed n))
  /\ (Series.any_le_zero n = false -> shifted n = n)
  /\ (forall l, n = Ints l -> Series.any_le_zero n = true ->
      exists m, m ∈ l /\ Forall (fun v => m <= v) l
        /\ shifted n = Ints (map (fun v => Int64.wrap (v + Z.abs m + 1)) l))
  /\ (forall l, n = Floats l -> Series.any_le_zero n = true ->
      shifted n = Floats (map (fun v => (v + PrimFloat.abs (Series.float_min l) + 1)%float) l))
  /\ (forall l, n = Ints l -> Series.any_le_zero n = true -> Spec.shift_fits l ->
      Spec.all_positive (shifted n))
  /\ (forall l, n = Floats l -> Series.any_le_zero n = true -> Spec.all_finite l ->
      Spec.all_positive (shifted n)).
Proof.
  intros Hy Hp Hi Hn Hr Hlt t.
  assert (Hnone : is_None y = false) by (destruct y; simpl; congruence).
  apply ltb_leb_false in Hlt.
  split; [exact (validate_tests_trimmed self X y log wy n r Hnone Hp Hi Hn Hr Hlt) | ].
  split; [apply below_to_float64 | ].
  split.
  { unfold trimmed. rewrite below_to_float64. apply Forall_forall. intros v Hv.
    apply list_elem_of_In, filter_In in Hv as [_ Hv]. now apply ltb_leb_false. }
  split.
  { intros v Hv Hnv Hnt Hle. unfold trimmed. rewrite below_to_float64.
    apply list_elem_of_In, filter_In. split; [now apply list_elem_of_In | ].
    change (threshold n (shifted n)) with t.
    destruct (PrimFloat.ltb v t) eqn:Hvt; [reflexivity | ].
    rewrite (not_ltb_leb v t Hnv Hnt Hvt) in Hle. discriminate. }
  split; [intros Hany; unfold shifted; now rewrite Hany | ].
  split; [ | split; [ | split]].
  - intros l -> Hany. unfold shifted. rewrite Hany.
    destruct (int_min_some l Hany) as [m Hm].
    destruct (int_min_spec l m Hm) as [Hin Hlow].
    exists m. split; [exact Hin | ]. split; [exact Hlow | ].
    simpl. rewrite Hm. f_equal. apply map_ext. intros v. apply shift_int64_wrap.
  - intros l -> Hany. unfold shifted. now rewrite Hany.
  - intros l -> Hany Hfit. unfold shifted. rewrite Hany.
    now apply shift_int64_positive.
  - intros l -> Hany Hfin. unfold shifted. rewrite Hany.
    now apply shift_float64_positive.
Qed.

End ValidateProperties.

(** ** The check on concrete targets *)

Section Runs.

Import TargetDistributionDataCheck Examples.

#[local] Existing Instance Reference.collaborators.

Lemma validate_unsupported_problem_type_witness :
  PySeries (StrCol labels) <> PyNone
  /\ problem_type binary_check <> REGRESSION
  /\ problem_type binary_check <> TIME_SERIES_REGRESSION
  /\ exists e,
       validate binary_check PyNone (PySeries (StrCol labels)) []
         = (Return {| warnings := []; errors := [e]; actions := [] |}, [])
       /\ code e = TARGET_UNSUPPORTED_PROBLEM_TYPE
       /\ level e = ERROR
       /\ details e = {[ "unsupported_problem_type" := VProblemType BINARY ]}
       /\ details e !! "unsupported_problem_type" = Some (VProblemType BINARY).
Proof.
  split; [discriminate | ]. split; [discriminate | ]. split; [discriminate | ].
  apply (validate_unsupported_problem_type binary_check PyNone (PySeries (StrCol labels)) []);
    discriminate.
Defined.

Lemma validate_normal_target_witness :
  PySeries (FloatCol symmetric) <> PyNone
  /\ supported (problem_type regression_check)
  /\ infer_feature_types (PySeries (FloatCol symmetric)) = Return (WwDouble symmetric)
  /\ numeric (WwDouble symmetric) = Some (Floats symmetric)
  /\ shapiro (Series.to_float64 (Floats symmetric)) = Return (tested symmetric)
  /\ PrimFloat.leb alpha (pvalue (tested symmetric)) = true
  /\ validate regression_check PyNone (PySeries (FloatCol symmetric)) []
     = (Return {| warnings := []; errors := []; actions := [] |},
        [Call_infer_feature_types (PySeries (FloatCol symmetric));
         Call_shapiro symmetric]).
Proof.
  split; [discriminate | ]. split; [now left | ].
  split; [reflexivity | ]. split; [reflexivity | ].
  split; [reflexivity | ]. split; [reflexivity | ].
  apply (validate_normal_target regression_check PyNone (PySeries (FloatCol symmetric)) []
           (WwDouble symmetric) (Floats symmetric) (tested symmetric));
    solve [discriminate | now left | reflexivity].
Defined.

Lemma validate_unsupported_type_witness :
  PySeries (StrCol labels) <> PyNone
  /\ supported (problem_type regression_check)
  /\ infer_feature_types (PySeries (StrCol labels))
     = Return (WwOther "categorical" (StrCol labels) eq_refl)
  /\ "categorical" <> Integer_type_string
  /\ "categorical" <> Double_type_string
  /\ exists e,
       validate regression_check PyNone (PySeries (StrCol labels)) []
         = (Return {| warnings := []; errors := [e]; actions := [] |},
            [Call_infer_feature_types (PySeries (StrCol labels))])
       /\ code e = TARGET_UNSUPPORTED_TYPE
       /\ level e = ERROR
       /\ details e = {[ "unsupported_type" := VStr "categorical" ]}
       /\ message e = "Target is unsupported categorical type. Valid Woodwork logical types include: integer, double".
Proof.
  split; [discriminate | ]. split; [now left | ]. split; [reflexivity | ].
  split; [discriminate | ]. split; [discriminate | ].
  apply (validate_unsupported_type regression_check PyNone (PySeries (StrCol labels)) []
           (WwOther "categorical" (StrCol labels) eq_refl));
    solve [discriminate | now left | reflexivity].
Defined.

Lemma validate_lognormal_iff_witness :
  PySeries (FloatCol doubling) <> PyNone
  /\ supported (problem_type regression_check)
  /\ infer_feature_types (PySeries (FloatCol doubling)) = Return (WwDouble doubling)
  /\ numeric (WwDouble doubling) = Some (Floats doubling)
  /\ shapiro (Series.to_float64 (Floats doubling)) = Return (tested doubling)
  /\ PrimFloat.ltb (pvalue (tested doubling)) alpha = true
  /\ shapiro (Series.to_float64 (trimmed (Floats doubling))) = Return (tested doubling)
  /\ shapiro (map np_log (Series.to_float64 (trimmed (Floats doubling))))
     = Return (tested (map np_log doubling))
  /\ PrimFloat.leb (pvalue (tested doubling)) (pvalue (tested (map np_log doubling))) = true
  /\ exists res w a,
       validate regression_check PyNone (PySeries (FloatCol doubling)) []
         = (Return res, analysis_calls (PySeries (FloatCol doubling)) (Floats doubling))
       /\ errors res = [] /\ warnings res = [w] /\ actions res = [a]
       /\ code w = TARGET_LOGNORMAL_DISTRIBUTION
       /\ details w = {[ "shapiro-statistic/pvalue" := VStr "0.378/0.006" ]}
       /\ action_code a = TRANSFORM_TARGET
       /\ metadata a !! "column" = Some VNone
       /\ metadata a !! "is_target" = Some (VBool true)
       /\ metadata a !! "transformation_strategy" = Some (VStr "lognormal").
Proof.
  split; [discriminate | ]. split; [now left | ].
  split; [reflexivity | ]. split; [reflexivity | ].
  split; [now vm_compute | ]. split; [now vm_compute | ].
  split; [now vm_compute | ]. split; [now vm_compute | ]. split; [now vm_compute | ].
  destruct (validate_lognormal_iff regression_check PyNone (PySeries (FloatCol doubling)) []
              (WwDouble doubling) (Floats doubling)
              (tested doubling) (tested doubling) (tested (map np_log doubling)))
    as (res & Hrun & Herr & _ & Hyes & _);
    [discriminate | now left | reflexivity | reflexivity
    | now vm_compute | now vm_compute | now vm_compute | now vm_compute | ].
  destruct Hyes as (w & a & Hw & Ha & Hcode & _ & Hdet & Hact & Hmeta); [now vm_compute | ].
  exists res, w, a.
  split; [exact Hrun | ]. split; [exact Herr | ]. split; [exact Hw | ]. split; [exact Ha | ].
  split; [exact Hcode | ]. split; [rewrite Hdet; now vm_compute | ].
  split; [exact Hact | ]. rewrite Hmeta. repeat split.
Defined.

(** A left-skewed target goes through the three tests and is not flagged:
    its logarithm looks less normal than the target itself. *)
Example validate_not_lognormal :
  run (validate regression_check PyNone (PySeries (FloatCol saturating)))
  = (Return {| warnings := []; errors := []; actions := [] |},
     analysis_calls (PySeries (FloatCol saturating)) (Floats saturating))
  /\ PrimFloat.ltb (pvalue (tested (map np_log saturating))) (pvalue (tested saturating)) = true.
Proof. split; now vm_compute. Qed.

(** A target of zero variance: the reference normality test, like scipy's,
    answers 1 on a sample of range zero, and the check returns at once. *)
Example validate_constant_target :
  run (validate regression_check PyNone (PySeries (IntCol constant)))
  = (Return {| warnings := []; errors := []; actions := [] |},
     [Call_infer_feature_types (PySeries (IntCol constant)); Call_shapiro [5; 5; 5]%float]).
Proof. now vm_compute. Qed.

Lemma validate_errors_exclusive_witness :
  exists res,
    validate regression_check PyNone (PySeries (StrCol labels)) []
      = (Return res, [Call_infer_feature_types (PySeries (StrCol labels))])
    /\ errors res <> []
    /\ warnings res = [] /\ actions res = []
    /\ (exists e, errors res = [e])
    /\ ([Call_infer_feature_types (PySeries (StrCol labels))] = []
        \/ [Call_infer_feature_types (PySeries (StrCol labels))]
           = [] ++ [Call_infer_feature_types (PySeries (StrCol labels))]).
Proof.
  eexists. split; [reflexivity | ]. split; [discriminate | ].
  eapply (validate_errors_exclusive regression_check PyNone (PySeries (StrCol labels)) []);
    [reflexivity | discriminate].
Defined.

(** C7, as stated, fails: the details of the unsupported-type error of a
    categorical target hold only the detected type; no entry names the
    allowed types. *)
Lemma unsupported_type_details_counterexample :
  PySeries (StrCol labels) <> PyNone
  /\ supported (problem_type regression_check)
  /\ infer_feature_types (PySeries (StrCol labels))
     = Return (WwOther "categorical" (StrCol labels) eq_refl)
  /\ ~ Spec.unsupported_type_error_as_specified
        (fst (run (validate regression_check PyNone (PySeries (StrCol labels)))))
        "categorical".
Proof.
  split; [discriminate | ]. split; [now left | ]. split; [reflexivity | ].
  intros (e & Hout & _ & _ & k & v & Hk & Hv).
  assert (He : details e = {[ "unsupported_type" := VStr "categorical" ]}).
  { unfold run in Hout. simpl in Hout. now injection Hout as <-. }
  rewrite He in Hk. apply lookup_singleton_Some in Hk as [_ <-].
  discriminate Hv.
Qed.

(** C3, as stated, fails: on a target of two values the normality test
    raises, and the exception leaves [validate]. *)
Lemma validate_raises_counterexample :
  run (validate regression_check PyNone (PySeries (FloatCol too_short)))
  = (Raise (mkExc "ValueError" "Data must be at least length 3."),
     [Call_infer_feature_types (PySeries (FloatCol too_short)); Call_shapiro too_short])
  /\ ~ returns (fst (run (validate regression_check PyNone (PySeries (FloatCol too_short))))).
Proof.
  split; [reflexivity | ]. intros [res Hres]. discriminate Hres.
Qed.

Lemma validate_raises_only_what_a_call_raised_witness :
  PySeries (FloatCol too_short) <> PyNone
  /\ supported (problem_type regression_check)
  /\ infer_feature_types (PySeries (FloatCol too_short)) = Return (WwDouble too_short)
  /\ numeric (WwDouble too_short) = Some (Floats too_short)
  /\ shapiro (Series.to_float64 (Floats too_short))
     = Raise (mkExc "ValueError" "Data must be at least length 3.")
  /\ validate regression_check PyNone (PySeries (FloatCol too_short)) []
     = (Raise (mkExc "ValueError" "Data must be at least length 3."),
        [] ++ [Call_infer_feature_types (PySeries (FloatCol too_short));
               Call_shapiro (Series.to_float64 (Floats too_short))])
  /\ (infer_feature_types (PySeries (FloatCol too_short))
        = Raise (mkExc "ValueError" "Data must be at least length 3.")
      /\ snd (validate regression_check PyNone (PySeries (FloatCol too_short)) [])
         = [] ++ [Call_infer_feature_types (PySeries (FloatCol too_short))]
      \/ exists calls x,
           snd (validate regression_check PyNone (PySeries (FloatCol too_short)) [])
             = [] ++ calls ++ [Call_shapiro x]
           /\ shapiro x = Raise (mkExc "ValueError" "Data must be at least length 3.")).
Proof.
  assert (Hy : PySeries (FloatCol too_short) <> PyNone) by discriminate.
  assert (Hp : supported (problem_type regression_check)) by now left.
  destruct (validate_raises_only_what_a_call_raised regression_check PyNone
              (PySeries (FloatCol too_short)) [])
    as (Horigin & _ & _ & _ & _ & _ & _ & Hanalysis).
  destruct (Hanalysis (WwDouble too_short) (Floats too_short)
              (mkExc "ValueError" "Data must be at least length 3.")
              Hy Hp eq_refl eq_refl) as [Hraw _].
  split; [exact Hy | ]. split; [exact Hp | ]. split; [reflexivity | ].
  split; [reflexivity | ]. split; [reflexivity | ].
  split; [exact (Hraw eq_refl) | ].
  apply Horigin. reflexivity.
Defined.

(** An exception of the type inference leaves [validate]: a target that is
    no series. *)
Example validate_raises_at_type_inference :
  run (validate regression_check PyNone (PyInt 3))
  = (Raise (mkExc "ValueError" "cannot convert the input to a series"),
     [Call_infer_feature_types (PyInt 3)]).
Proof. reflexivity. Qed.

(** An exception of the second normality test leaves [validate]: with an
    infinite value the threshold is not a number, every value is dropped,
    and the test gets the empty sample. *)
Example validate_raises_at_trimmed_test :
  run (validate regression_check PyNone (PySeries (FloatCol with_infinity)))
  = (Raise (mkExc "ValueError" "Data must be at least length 3."),
     [Call_infer_feature_types (PySeries (FloatCol with_infinity));
      Call_shapiro with_infinity; Call_shapiro []]).
Proof. now vm_compute. Qed.

(** C2, as stated, fails: on an int64 target that holds [2**63 - 1] and
    a value at most 0, the shift wraps around and leaves a negative value. *)
Lemma prepared_series_counterexample :
  infer_feature_types (PySeries (IntCol near_max_int)) = Return (WwInteger near_max_int)
  /\ shapiro (Series.to_float64 (Ints near_max_int))
     = Return (tested (map Int64.to_float near_max_int))
  /\ PrimFloat.ltb (pvalue (tested (map Int64.to_float near_max_int))) alpha = true
  /\ Series.any_le_zero (Ints near_max_int) = true
  /\ shifted (Ints near_max_int) = Ints [1; 2; 2; 2; 2; 2; 2; - 2 ^ 63 + 1]
  /\ ~ Spec.prepared_as_specified (Ints near_max_int).
Proof.
  split; [reflexivity | ]. split; [now vm_compute | ]. split; [now vm_compute | ].
  split; [reflexivity | ]. split; [now vm_compute | ].
  intros [_ Hpos]. specialize (Hpos eq_refl).
  assert (Hs : shifted (Ints near_max_int) = Ints [1; 2; 2; 2; 2; 2; 2; - 2 ^ 63 + 1])
    by now vm_compute.
  rewrite Hs in Hpos. simpl in Hpos.
  rewrite Forall_forall in Hpos.
  specialize (Hpos (- 2 ^ 63 + 1)). 
  assert (Hin : - 2 ^ 63 + 1 ∈ [1; 2; 2; 2; 2; 2; 2; - 2 ^ 63 + 1]).
  { rewrite !elem_of_cons. tauto. }
  specialize (Hpos Hin). lia.
Qed.

(** Further boundaries of the literal wording, in float64.  A NaN entry
    is not greater than or equal to the threshold, yet it is not kept; the
    shift leaves a NaN entry NaN; and adding [abs(min)] and then 1 rounds
    twice where adding [abs(min) + 1] rounds once. *)
Example trimming_drops_nan :
  trimmed (Floats with_nan) = Floats [1; 2; 2; 2; 2; 2; 2; 2; 2; 2]%float
  /\ Series.length (Spec.analysed (Floats with_nan)) = 11%nat.
Proof. split; now vm_compute. Qed.

Example shift_keeps_nan :
  shifted (Floats with_nan) = Floats [1; 2; 2; 2; 2; 2; 2; 2; 2; 2; 52; PrimFloat.nan]%float
  /\ ~ Spec.all_positive (shifted (Floats with_nan)).
Proof.
  assert (Hs : shifted (Floats with_nan)
               = Floats [1; 2; 2; 2; 2; 2; 2; 2; 2; 2; 52; PrimFloat.nan]%float)
    by now vm_compute.
  split; [exact Hs | ]. rewrite Hs. simpl. rewrite Forall_forall. intros Hall.
  specialize (Hall PrimFloat.nan). discriminate Hall.
  rewrite !elem_of_cons. tauto.
Qed.

Example shift_rounds_twice :
  shifted (Floats with_large) = Floats [1; 2; 2; 2; 1e16]%float
  /\ Spec.shifted (Floats with_large) = Floats [1; 2; 2; 2; 10000000000000002]%float.
Proof. split; now vm_compute. Qed.

Lemma shift_fits_with_negatives : Spec.shift_fits with_negatives.
Proof.
  split.
  - unfold with_negatives, Int64.in_range, Int64.min_int, Int64.max_int.
    repeat constructor; lia.
  - intros m [= <-]. unfold with_negatives, Int64.min_int, Int64.max_int. simpl.
    split; [lia | ]. repeat constructor; lia.
Defined.

Lemma validate_prepared_series_witness :
  PySeries (IntCol with_negatives) <> PyNone
  /\ supported (problem_type regression_check)
  /\ infer_feature_types (PySeries (IntCol with_negatives)) = Return (WwInteger with_negatives)
  /\ numeric (WwInteger with_negatives) = Some (Ints with_negatives)
  /\ shapiro (Series.to_float64 (Ints with_negatives))
     = Return (tested (map Int64.to_float with_negatives))
  /\ PrimFloat.ltb (pvalue (tested (map Int64.to_float with_negatives))) alpha = true
  /\ (exists rest,
        snd (validate regression_check PyNone (PySeries (IntCol with_negatives)) [])
        = [] ++ [Call_infer_feature_types (PySeries (IntCol with_negatives));
                 Call_shapiro (Series.to_float64 (Ints with_negatives));
                 Call_shapiro (Series.to_float64 (trimmed (Ints with_negatives)))] ++ rest)
  /\ Spec.all_positive (shifted (Ints with_negatives)).
Proof.
  split; [discriminate | ]. split; [now left | ].
  split; [reflexivity | ]. split; [reflexivity | ].
  split; [now vm_compute | ]. split; [now vm_compute | ].
  destruct (validate_prepared_series regression_check PyNone (PySeries (IntCol with_negatives)) []
              (WwInteger with_negatives) (Ints with_negatives)
              (tested (map Int64.to_float with_negatives)))
    as (Hcalls & _ & _ & _ & _ & _ & _ & Hpos & _);
    [discriminate | now left | reflexivity | reflexivity | now vm_compute | now vm_compute | ].
  split; [exact Hcalls | ].
  apply (Hpos with_negatives eq_refl eq_refl shift_fits_with_negatives).
Defined.

End Runs.

(** ** [Estimator] *)

(** C10. [predict], [predict_proba] and [score] call the method of the same
    name of the wrapped model, once and on the arguments they were given,
    and discard what it returns: whenever the wrapped method returns, the
    wrapper returns [None]; an exception of the wrapped method propagates. *)
Theorem estimator_methods_return_none (self : Estimator.t)
    (X y other_objectives : PyObj) (log : list Estimator.Call) :
  let obj := Estimator._component_obj self in
  (Estimator.predict self X log
     = (outcome_map (fun _ => PyNone) (Estimator.obj_predict obj X),
        log ++ [Estimator.Call_predict X])
   /\ forall v, fst (Estimator.predict self X log) = Return v -> v = PyNone)
  /\ (Estimator.predict_proba self X log
       = (outcome_map (fun _ => PyNone) (Estimator.obj_predict_proba obj X),
          log ++ [Estimator.Call_predict_proba X])
      /\ forall v, fst (Estimator.predict_proba self X log) = Return v -> v = PyNone)
  /\ (Estimator.score self X y other_objectives log
       = (outcome_map (fun _ => PyNone) (Estimator.obj_score obj X y),
          log ++ [Estimator.Call_score X y])
      /\ forall v, fst (Estimator.score self X y other_objectives log) = Return v
                   -> v = PyNone).
Proof.
  intros obj.
  unfold Estimator.predict, Estimator.predict_proba, Estimator.score, bind, call, ret.
  fold obj.
  destruct (Estimator.obj_predict obj X), (Estimator.obj_predict_proba obj X),
    (Estimator.obj_score obj X y); simpl;
    repeat split; intros v Hv; congruence.
Qed.

(** * Further properties *)

(** ** The results and the calls of [validate] *)

Section ValidateShape.

Import TargetDistributionDataCheck.

Context `{Collaborators}.

Implicit Types (self : TargetDistributionDataCheck.t) (X y : PyObj) (log : list Call).

(** X1. Every result [validate] returns has one of three shapes: it is
    empty; or it holds exactly one error and nothing else; or it holds
    exactly one warning together with exactly one action and no error.
    Every message carries the name of the check and the level of the list
    it is in. *)
Theorem validate_result_shape self X y log (res : Results) log' :
  validate self X y log = (Return res, log') ->
  res = {| warnings := []; errors := []; actions := [] |}
  \/ (exists e,
        res = {| warnings := []; errors := [e]; actions := [] |}
        /\ level e = ERROR
        /\ data_check_name e = "TargetDistributionDataCheck"
        /\ (code e = TARGET_IS_NONE \/ code e = TARGET_UNSUPPORTED_PROBLEM_TYPE
            \/ code e = TARGET_UNSUPPORTED_TYPE))
  \/ (exists w a,
        res = {| warnings := [w]; errors := []; actions := [a] |}
        /\ level w = WARNING
        /\ data_check_name w = "TargetDistributionDataCheck"
        /\ code w = TARGET_LOGNORMAL_DISTRIBUTION
        /\ action_code a = TRANSFORM_TARGET).
Proof.
  unfold validate. cbv zeta.
  destruct (is_None y).
  { intros [= <- _]. right. left. eexists. split; [reflexivity | ]. simpl. tauto. }
  destruct (bool_decide (problem_type self ∈ _)); cbn [negb]; cbv iota.
  2:{ intros [= <- _]. right. left. eexists. split; [reflexivity | ]. simpl. tauto. }
  unfold bind at 1, call at 1.
  destruct (infer_feature_types y) as [wy | e]; [ | discriminate].
  destruct (bool_decide (type_string wy ∈ _)); cbn [negb]; cbv iota.
  2:{ intros [= <- _]. right. left. eexists. split; [reflexivity | ]. simpl. tauto. }
  destruct (numeric wy) as [n | ]; [ | discriminate].
  intros Hrun.
  destruct (analyse_cases self empty_results n (log ++ [Call_infer_feature_types y]))
    as [(e1 & _ & Hc) | [(r & _ & _ & Hc) | [(r & e1 & _ & _ & _ & Hc)
       | [(r & og & e1 & _ & _ & _ & _ & Hc) | (r & og & lg & _ & _ & _ & _ & Hc)]]]];
    rewrite Hc in Hrun; try discriminate; injection Hrun as <- _.
  - now left.
  - destruct (PrimFloat.leb (pvalue og) (pvalue lg)); [ | now left].
    right. right. eexists _, _. split; [reflexivity | ]. simpl. tauto.
Qed.

(** X2. The calls [validate] makes are a prefix of: the type inference,
    the normality test on the raw values, the test on the trimmed series,
    the test on its logarithm.  A normality test is only run on a target
    whose inferred type is numeric, and never more than three times. *)
Theorem validate_call_discipline self X y log :
  exists calls,
    snd (validate self X y log) = log ++ calls
    /\ (calls = []
        \/ calls = [Call_infer_feature_types y]
        \/ exists wy n k,
             infer_feature_types y = Return wy
             /\ numeric wy = Some n
             /\ (2 <= k <= 4)%nat
             /\ calls = take k (analysis_calls y n)).
Proof.
  destruct (is_None y) eqn:Hy.
  { exists []. unfold validate. rewrite Hy. simpl. rewrite app_nil_r. auto. }
  destruct (bool_decide (problem_type self ∈ [REGRESSION; TIME_SERIES_REGRESSION])) eqn:Hp.
  2:{ exists []. unfold validate. rewrite Hy, Hp. simpl. rewrite app_nil_r. auto. }
  apply supported_decide in Hp.
  destruct (infer_feature_types y) as [wy | e0] eqn:Hi.
  2:{ exists [Call_infer_feature_types y].
      rewrite (validate_infer_raises self X y log e0 Hy Hp Hi). auto. }
  rewrite (validate_inferred self X y log wy Hy Hp Hi).
  destruct (bool_decide (type_string wy ∈ _)) eqn:Hts; cbn [negb]; cbv iota.
  2:{ exists [Call_infer_feature_types y]. auto. }
  destruct (type_string_numeric wy Hts) as [n Hn]. rewrite Hn. cbv beta iota.
  destruct (analyse_cases self empty_results n (log ++ [Call_infer_feature_types y]))
    as [(e1 & _ & Hc) | [(r & _ & _ & Hc) | [(r & e1 & _ & _ & _ & Hc)
       | [(r & og & e1 & _ & _ & _ & _ & Hc) | (r & og & lg & _ & _ & _ & _ & Hc)]]]];
    rewrite Hc; simpl snd; rewrite <- app_assoc; eexists; (split; [reflexivity | ]);
    right; right; exists wy, n.
  - exists 2%nat. repeat split; auto.
  - exists 2%nat. repeat split; auto.
  - exists 3%nat. repeat split; auto.
  - exists 4%nat. repeat split; auto.
  - exists 4%nat. repeat split; auto.
Qed.

(** X3. The two supported problem types are treated alike: a check for
    regression and a check for time-series regression run the same
    computation on every target. *)
Theorem validate_supported_types_alike self1 self2 X y log :
  supported (problem_type self1) ->
  supported (problem_type self2) ->
  validate self1 X y log = validate self2 X y log.
Proof.
  destruct self1 as [p1], self2 as [p2]. simpl.
  intros [-> | ->] [-> | ->]; reflexivity.
Qed.

End ValidateShape.

(** ** The shift and the trimming of [validate] *)

Section ShiftAndTrim.

Import TargetDistributionDataCheck.

Lemma fold_left_min_add (c : Z) (vs : list Z) :
  forall v,
    fold_left Z.min (map (fun x => x + c) vs) (v + c) = fold_left Z.min vs v + c.
Proof.
  induction vs as [ | x vs IH]; intros v; simpl; [reflexivity | ].
  rewrite Z.add_min_distr_r. apply IH.
Qed.

Lemma any_le_zero_int_min (l : list Z) (m : Z) :
  Series.any_le_zero (Ints l) = true -> Series.int_min l = Some m -> m <= 0.
Proof.
  intros Hany Hm. simpl in Hany. apply existsb_exists in Hany as (z & Hz & Hz0).
  destruct (int_min_spec l m Hm) as [_ Hlow]. rewrite Forall_forall in Hlow.
  apply list_elem_of_In in Hz. specialize (Hlow z Hz). lia.
Qed.

(** X4. On an int64 target with a value at most 0 on which the shift does
    not wrap around, the shift subtracts the minimum and adds 1: it keeps
    the order and the gaps of the values, and the least shifted value is
    exactly 1. *)
Theorem shift_int64_exact (l : list Z) :
  Series.any_le_zero (Ints l) = true ->
  Spec.shift_fits l ->
  exists m,
    Series.int_min l = Some m
    /\ m <= 0
    /\ shifted (Ints l) = Ints (map (fun v => v - m + 1) l)
    /\ Series.int_min (map (fun v => v - m + 1) l) = Some 1.
Proof.
  intros Hany Hfit.
  destruct (int_min_some l Hany) as [m Hm].
  pose proof (any_le_zero_int_min l m Hany Hm) as Hm0.
  destruct Hfit as [Hrange Hfit]. destruct (Hfit m Hm) as [Hmin Hmax].
  destruct (int_min_spec l m Hm) as [_ Hlow].
  rewrite Forall_forall in Hrange, Hmax, Hlow.
  exists m. split; [exact Hm | ]. split; [exact Hm0 | ]. split.
  - unfold shifted. rewrite Hany. simpl. rewrite Hm. f_equal.
    apply map_ext_in. intros v Hv. apply list_elem_of_In in Hv.
    rewrite shift_int64_wrap.
    specialize (Hrange v Hv). specialize (Hmax v Hv). specialize (Hlow v Hv).
    simpl in Hmax. unfold Int64.in_range, Int64.min_int, Int64.max_int in *.
    rewrite wrap_in_range; unfold Int64.in_range, Int64.min_int, Int64.max_int; lia.
  - destruct l as [ | v vs]; [discriminate | ]. simpl in Hm |- *.
    injection Hm as Hm. f_equal.
    replace (v - m + 1) with (v + (1 - m)) by lia.
    rewrite (map_ext (fun v0 => v0 - m + 1) (fun x => x + (1 - m))) by (intros; lia).
    rewrite fold_left_min_add. lia.
Qed.

Lemma fold_fmin_in (vs : list float) :
  forall v, fold_left Series.fmin vs v ∈ v :: vs.
Proof.
  induction vs as [ | x vs IH]; intros v; simpl.
  - apply elem_of_cons. now left.
  - specialize (IH (Series.fmin v x)). rewrite elem_of_cons in IH.
    rewrite !elem_of_cons. destruct IH as [Heq | Hin]; [ | auto].
    rewrite Heq. unfold Series.fmin. destruct (PrimFloat.ltb x v); auto.
Qed.

Lemma float_min_in (l : list float) :
  Spec.all_finite l -> l <> [] -> Series.float_min l ∈ l.
Proof.
  intros Fl Hne. unfold Series.float_min. rewrite (dropna_finite l Fl).
  destruct l as [ | v vs]; [congruence | ]. apply fold_fmin_in.
Qed.

(** In binary64 a finite [m <= 0] and its absolute value cancel exactly. *)
Lemma min_shifts_to_one (m : float) :
  PrimFloat.is_finite m = true -> PrimFloat.leb m 0 = true ->
  (m + PrimFloat.abs m + 1)%float = 1%float.
Proof.
  intros Fm Hm0.
  apply (leb_scaled m 0%float Fm eq_refl) in Hm0.
  change (Binary64.scaled (Prim2SF 0)) with 0 in Hm0.
  apply Prim2SF_inj. rewrite !add_spec, abs_spec.
  pose proof (Prim2SF_finite m Fm) as Ff.
  pose proof (Prim2SF_valid m) as Vm.
  change (Prim2SF 1) with Binary64.one.
  destruct (Prim2SF m) as [s | s | | s mm em]; try contradiction.
  - now destruct s.
  - pose proof (scaled_pos mm em (proj1 (proj1 (valid_finite _ _ _ Vm)))) as Hpos.
    destruct s; simpl in Hm0; [ | lia].
    unfold SF64add at 2. unfold SFadd, SFabs, shl_align.
    rewrite Z.min_id, Z.sub_diag. simpl fst. simpl cond_Zopp.
    rewrite Z.add_opp_diag_l. reflexivity.
Qed.

(** X5. On a float64 target without NaN and infinities that has a value at
    most 0, the shift sends the minimum to exactly 1.0: the shifted series
    has the length of the target, holds the value 1.0, and holds only
    strictly positive values. *)
Theorem shift_float64_min_to_one (l : list float) :
  Series.any_le_zero (Floats l) = true ->
  Spec.all_finite l ->
  exists vals,
    shifted (Floats l) = Floats vals
    /\ List.length vals = List.length l
    /\ 1%float ∈ vals
    /\ Forall (fun v => PrimFloat.ltb 0 v = true) vals.
Proof.
  intros Hany Fl.
  assert (Hne : l <> []) by (intros ->; discriminate).
  destruct (float_min_spec l Fl Hne) as [Fm Hlow].
  pose proof (float_min_in l Fl Hne) as Hin.
  assert (Hm0 : PrimFloat.leb (Series.float_min l) 0 = true).
  { simpl in Hany. apply existsb_exists in Hany as (z & Hz & Hz0).
    apply list_elem_of_In in Hz.
    rewrite Forall_forall in Hlow. unfold Spec.all_finite in Fl.
    rewrite Forall_forall in Fl.
    apply (leb_scaled (Series.float_min l) 0%float Fm eq_refl).
    pose proof (proj1 (leb_scaled _ _ Fm (Fl z Hz)) (Hlow z Hz)).
    pose proof (proj1 (leb_scaled z 0%float (Fl z Hz) eq_refl) Hz0). lia. }
  eexists. split; [unfold shifted; rewrite Hany; reflexivity | ].
  split; [apply length_map | ]. split.
  - apply list_elem_of_fmap. exists (Series.float_min l).
    split; [symmetry; exact (min_shifts_to_one (Series.float_min l) Fm Hm0) | exact Hin].
  - exact (shift_float64_positive l Hany Fl).
Qed.

Lemma all_positive_none_le_zero (y : Numeric) :
  Spec.all_positive y -> Series.any_le_zero y = false.
Proof.
  destruct y as [l | l]; simpl; intros Hpos;
    apply not_true_is_false; intros Hany;
    apply existsb_exists in Hany as (z & Hz & Hz0);
    apply list_elem_of_In in Hz; rewrite Forall_forall in Hpos;
    specialize (Hpos z Hz).
  - lia.
  - apply ltb_leb_false in Hpos. congruence.
Qed.

(** X6. After the preparation no value is at most 0, so preparing a
    target twice is preparing it once: on an int64 target that the shift
    does not make wrap around and on a float64 target without NaN and
    infinities, [shifted] is idempotent. *)
Theorem shifted_idempotent (y : Numeric) :
  Shift.safe y ->
  Series.any_le_zero (shifted y) = false
  /\ shifted (shifted y) = shifted y.
Proof.
  intros Hsafe.
  assert (Hnone : Series.any_le_zero (shifted y) = false).
  { unfold shifted. destruct (Series.any_le_zero y) eqn:Hany; [ | exact Hany].
    apply all_positive_none_le_zero.
    destruct y as [l | l]; simpl in Hsafe.
    - now apply shift_int64_positive.
    - now apply shift_float64_positive. }
  split; [exact Hnone | ].
  unfold shifted at 1. now rewrite Hnone.
Qed.

End ShiftAndTrim.

Section Trimming.

Import TargetDistributionDataCheck.

Context `{Collaborators}.

Lemma filter_sublist_of {A : Type} (p : A -> bool) (l : list A) :
  List.filter p l `sublist_of` l.
Proof.
  induction l as [ | x l IH]; simpl; [constructor | ].
  destruct (p x); now constructor.
Qed.

Lemma shift_length (y : Numeric) : Series.length (Series.shift y) = Series.length y.
Proof.
  destruct y as [l | l]; simpl; [ | apply length_map].
  destruct (Series.int_min l); simpl; apply length_map.
Qed.

Lemma to_float64_length (y : Numeric) :
  List.length (Series.to_float64 y) = Series.length y.
Proof. destruct y as [l | l]; simpl; [apply length_map | reflexivity]. Qed.

(** X7. Shifting and trimming never add or reorder values: the shifted
    series has the length of the target, what the later normality tests
    see of the trimmed series is a subsequence of the shifted values, and
    so the trimmed series is never longer than the target. *)
Theorem trimming_only_removes (n : Numeric) :
  Series.length (shifted n) = Series.length n
  /\ Series.to_float64 (trimmed n) `sublist_of` Series.to_float64 (shifted n)
  /\ (Series.length (trimmed n) <= Series.length n)%nat.
Proof.
  assert (Hlen : Series.length (shifted n) = Series.length n).
  { unfold shifted. destruct (Series.any_le_zero n); [apply shift_length | reflexivity]. }
  assert (Hsub : Series.to_float64 (trimmed n) `sublist_of` Series.to_float64 (shifted n)).
  { unfold trimmed. rewrite below_to_float64. apply filter_sublist_of. }
  split; [exact Hlen | ]. split; [exact Hsub | ].
  apply sublist_length in Hsub. rewrite !to_float64_length in Hsub. lia.
Qed.

Lemma ltb_nan_r (v t : float) : PrimFloat.is_nan t = true -> PrimFloat.ltb v t = false.
Proof.
  intros Ht. rewrite ltb_spec. unfold Prim2SF at 2. rewrite Ht.
  unfold SFltb. now destruct (Prim2SF v).
Qed.

Lemma filter_none {A : Type} (p : A -> bool) (l : list A) :
  (forall x, x ∈ l -> p x = false) -> List.filter p l = [].
Proof.
  induction l as [ | x l IH]; intros Hall; simpl; [reflexivity | ].
  rewrite (Hall x) by (apply elem_of_cons; now left).
  apply IH. intros z Hz. apply Hall. apply elem_of_cons. now right.
Qed.

(** X8. When the threshold is NaN (the mean or the standard deviation is
    not a number), no value is strictly below it: every value is dropped,
    and the two later normality tests get the empty sample. *)
Theorem nan_threshold_drops_everything (n : Numeric) :
  PrimFloat.is_nan (threshold n (shifted n)) = true ->
  Series.to_float64 (trimmed n) = []
  /\ Series.length (trimmed n) = 0%nat.
Proof.
  intros Ht.
  assert (Hnil : Series.to_float64 (trimmed n) = []).
  { unfold trimmed. rewrite below_to_float64. apply filter_none.
    intros v _. now apply ltb_nan_r. }
  split; [exact Hnil | ]. now rewrite <- to_float64_length, Hnil.
Qed.

Lemma filter_all {A : Type} (p : A -> bool) (l : list A) :
  (forall x, x ∈ l -> p x = true) -> List.filter p l = l.
Proof.
  induction l as [ | x l IH]; intros Hall; simpl; [reflexivity | ].
  rewrite (Hall x) by (apply elem_of_cons; now left).
  f_equal. apply IH. intros z Hz. apply Hall. apply elem_of_cons. now right.
Qed.

Lemma eqb_zero (r : float) :
  PrimFloat.eqb r 0 = true -> exists s, Prim2SF r = S754_zero s.
Proof.
  rewrite FloatAxioms.eqb_spec. change (Prim2SF 0) with (S754_zero false).
  unfold SFeqb. destruct (Prim2SF r) as [s | s | | s m e]; simpl; try discriminate.
  - eauto.
  - now destruct s.
  - now destruct s.
Qed.

(** Adding three times zero to the mean changes no comparison with it. *)
Lemma zero_spread_threshold (c mu r : float) :
  PrimFloat.eqb r 0 = true ->
  PrimFloat.ltb c (mu + 3 * r) = PrimFloat.ltb c mu.
Proof.
  intros Hr. apply eqb_zero in Hr as [s Hr].
  rewrite !ltb_spec, add_spec, mul_spec, Hr.
  change (Prim2SF 3) with (S754_finite false 6755399441055744 (-51)).
  unfold SF64mul, SFmul, SF64add, SFadd, SFltb.
  destruct (Prim2SF mu) as [sm | sm | | sm mm em]; try reflexivity.
  destruct sm, s; cbn [xorb Bool.eqb]; cbv iota;
    now destruct (Prim2SF c) as [sc | sc | | sc mc ec].
Qed.

(** X9. On a target whose shifted values are all the same number, trimming
    is all or nothing: the two later normality tests get every value when
    that number is strictly below the threshold, and the empty sample
    otherwise.  When the rounded standard deviation is zero, the computed
    mean alone decides: every value is kept when the number is strictly
    below the mean as computed in float64, none is kept otherwise. *)
Theorem constant_series_all_or_nothing (n : Numeric) (c : float) :
  Forall (fun v => v = c) (Series.to_float64 (shifted n)) ->
  Series.to_float64 (trimmed n)
    = (if PrimFloat.ltb c (threshold n (shifted n))
       then Series.to_float64 (shifted n) else [])
  /\ (PrimFloat.eqb (py_round (pd_std (Series.to_float64 n)) 3) 0 = true ->
      Series.to_float64 (trimmed n)
        = (if PrimFloat.ltb c (pd_mean (Series.to_float64 (shifted n)))
           then Series.to_float64 (shifted n) else [])).
Proof.
  intros Hconst. rewrite Forall_forall in Hconst.
  assert (Hall : Series.to_float64 (trimmed n)
                 = (if PrimFloat.ltb c (threshold n (shifted n))
                    then Series.to_float64 (shifted n) else [])).
  { unfold trimmed. rewrite below_to_float64.
    destruct (PrimFloat.ltb c (threshold n (shifted n))) eqn:Hlt.
    - apply filter_all. intros v Hv. now rewrite (Hconst v Hv).
    - apply filter_none. intros v Hv. now rewrite (Hconst v Hv). }
  split; [exact Hall | ].
  intros Hstd. rewrite Hall. unfold threshold.
  now rewrite (zero_spread_threshold c _ _ Hstd).
Qed.

End Trimming.

(** ** The concrete estimators *)

Section ConcreteEstimators.

Import Estimator Components.

Context `{Libraries}.

(** What a constructor call does: one instantiation of a library class;
    when that returns a model, the estimator is built around it. *)
Lemma construct_cases (i : Invocation) (log : list Construction) :
  exists cls kw,
    snd (construct i log) = log ++ [Construct cls kw]
    /\ kw !! "random_state" = random_state_of i
    /\ ((exists e, instantiate cls kw = Raise e /\ fst (construct i log) = Raise e)
        \/ (exists obj c,
              instantiate cls kw = Return obj
              /\ fst (construct i log) = Return c
              /\ _component_obj (base c) = obj
              /\ Estimator.random_state (base c) = 0
              /\ needs_fitting (base c) = false
              /\ attributes c !! "random_state" = random_state_of i
              /\ forall k, k ∈ (hyperparameters (base c)).*1 -> is_Some (kw !! k))).
Proof.
  destruct i; simpl construct;
    unfold LogisticRegressionClassifier, RandomForestClassifier, XGBoostClassifier,
      RandomForestRegressor, LinearRegressor, bind, call, ret; cbv zeta;
    match goal with
    | |- context [instantiate ?c ?k] =>
        exists c, k; destruct (instantiate c k) as [obj | e]
    end;
    cbn [fst snd]; (split; [reflexivity | ]); (split; [reflexivity | ]);
    try (left; eexists; split; reflexivity);
    right; eexists _, _; repeat (split; [reflexivity | ]);
    simpl; intros k Hk;
    repeat (apply elem_of_cons in Hk as [-> | Hk]; [eexists; reflexivity | ]);
    now apply elem_of_nil in Hk.
Qed.

(** X10. Every hyperparameter an estimator declares for tuning is a
    keyword argument its wrapped model is built with: whatever the
    arguments of the constructor, the keys of the search space are among
    the keywords of the one library call the constructor makes. *)
Theorem declared_hyperparameters_are_passed (i : Invocation) (log : list Construction) :
  exists cls kw,
    snd (construct i log) = log ++ [Construct cls kw]
    /\ forall c, fst (construct i log) = Return c ->
         forall k, k ∈ (hyperparameters (base c)).*1 -> is_Some (kw !! k).
Proof.
  destruct (construct_cases i log)
    as (cls & kw & Hlog & _ & [(e & _ & Hout) | (obj & c & _ & Hout & _ & _ & _ & _ & Hk)]);
    exists cls, kw; (split; [exact Hlog | ]); intros c' Hc'; rewrite Hout in Hc'.
  - discriminate.
  - now injection Hc' as <-.
Qed.

(** X11. The [random_state] of a constructor call reaches the wrapped
    model and the attribute of the instance, but not the base class:
    [Estimator.__init__] is called without it and with no [needs_fitting],
    so the base class always gets [random_state = 0] and
    [needs_fitting = False]. *)
Theorem random_state_stops_at_the_model (i : Invocation) (log log' : list Construction)
    (c : Component) :
  construct i log = (Return c, log') ->
  Estimator.random_state (base c) = 0
  /\ needs_fitting (base c) = false
  /\ attributes c !! "random_state" = random_state_of i
  /\ exists cls kw,
       log' = log ++ [Construct cls kw]
       /\ kw !! "random_state" = random_state_of i.
Proof.
  intros Hrun.
  destruct (construct_cases i log)
    as (cls & kw & Hlog & Hrs
        & [(e & _ & Hout) | (obj & c0 & _ & Hout & _ & Hr & Hn & Ha & _)]);
    rewrite Hrun in Hlog, Hout; simpl in Hlog, Hout; [discriminate | ].
  injection Hout as ->. eauto 8.
Qed.

(** X12. A constructed estimator delegates to the model built from its own
    arguments: [predict], [predict_proba] and [score] call the model the
    library returned for the keywords of the constructor call, and return
    [None] whenever that model's method returns. *)
Theorem constructed_estimator_delegates (i : Invocation) (log log' : list Construction)
    (c : Component) :
  construct i log = (Return c, log') ->
  exists cls kw obj,
    log' = log ++ [Construct cls kw]
    /\ instantiate cls kw = Return obj
    /\ forall (X y other_objectives : PyObj) (l : list Estimator.Call),
         predict (base c) X l
           = (outcome_map (fun _ => PyNone) (obj_predict obj X), l ++ [Call_predict X])
         /\ predict_proba (base c) X l
           = (outcome_map (fun _ => PyNone) (obj_predict_proba obj X),
              l ++ [Call_predict_proba X])
         /\ score (base c) X y other_objectives l
           = (outcome_map (fun _ => PyNone) (obj_score obj X y), l ++ [Call_score X y]).
Proof.
  intros Hrun.
  destruct (construct_cases i log)
    as (cls & kw & Hlog & _
        & [(e & _ & Hout) | (obj & c0 & Hobj & Hout & Hc & _)]);
    rewrite Hrun in Hlog, Hout; simpl in Hlog, Hout; [discriminate | ].
  injection Hout as ->. exists cls, kw, obj.
  split; [exact Hlog | ]. split; [exact Hobj | ].
  intros X y oo l. unfold predict, predict_proba, score, bind, call, ret. rewrite Hc.
  now destruct (obj_predict obj X), (obj_predict_proba obj X), (obj_score obj X y).
Qed.

End ConcreteEstimators.

(** ** The further properties on concrete inputs *)

Section MoreRuns.

Import TargetDistributionDataCheck Examples.

#[local] Existing Instance Reference.collaborators.

Lemma validate_result_shape_witness :
  exists res log',
    validate regression_check PyNone (PySeries (StrCol labels)) [] = (Return res, log')
    /\ (res = {| warnings := []; errors := []; actions := [] |}
        \/ (exists e,
              res = {| warnings := []; errors := [e]; actions := [] |}
              /\ level e = ERROR
              /\ data_check_name e = "TargetDistributionDataCheck"
              /\ (code e = TARGET_IS_NONE \/ code e = TARGET_UNSUPPORTED_PROBLEM_TYPE
                  \/ code e = TARGET_UNSUPPORTED_TYPE))
        \/ (exists w a,
              res = {| warnings := [w]; errors := []; actions := [a] |}
              /\ level w = WARNING
              /\ data_check_name w = "TargetDistributionDataCheck"
              /\ code w = TARGET_LOGNORMAL_DISTRIBUTION
              /\ action_code a = TRANSFORM_TARGET)).
Proof.
  eexists _, _. split; [reflexivity | ].
  eapply (validate_result_shape regression_check PyNone (PySeries (StrCol labels)) []).
  reflexivity.
Defined.

Lemma validate_supported_types_alike_witness :
  supported (problem_type regression_check)
  /\ supported (problem_type (mk TIME_SERIES_REGRESSION))
  /\ validate regression_check PyNone (PySeries (FloatCol symmetric)) []
     = validate (mk TIME_SERIES_REGRESSION) PyNone (PySeries (FloatCol symmetric)) [].
Proof.
  split; [now left | ]. split; [now right | ].
  apply validate_supported_types_alike; [now left | now right].
Defined.

Lemma shift_int64_exact_witness :
  Series.any_le_zero (Ints with_negatives) = true
  /\ Spec.shift_fits with_negatives
  /\ exists m,
       Series.int_min with_negatives = Some m
       /\ m <= 0
       /\ shifted (Ints with_negatives) = Ints (map (fun v => v - m + 1) with_negatives)
       /\ Series.int_min (map (fun v => v - m + 1) with_negatives) = Some 1.
Proof.
  split; [reflexivity | ]. split; [exact shift_fits_with_negatives | ].
  exact (shift_int64_exact with_negatives eq_refl shift_fits_with_negatives).
Defined.

Lemma all_finite_with_large : Spec.all_finite with_large.
Proof. repeat constructor. Defined.

Lemma shift_float64_min_to_one_witness :
  Series.any_le_zero (Floats with_large) = true
  /\ Spec.all_finite with_large
  /\ exists vals,
       shifted (Floats with_large) = Floats vals
       /\ List.length vals = List.length with_large
       /\ 1%float ∈ vals
       /\ Forall (fun v => PrimFloat.ltb 0 v = true) vals.
Proof.
  split; [reflexivity | ]. split; [exact all_finite_with_large | ].
  exact (shift_float64_min_to_one with_large eq_refl all_finite_with_large).
Defined.

Lemma shifted_idempotent_witness :
  Shift.safe (Ints with_negatives)
  /\ Series.any_le_zero (shifted (Ints with_negatives)) = false
  /\ shifted (shifted (Ints with_negatives)) = shifted (Ints with_negatives).
Proof.
  split; [exact shift_fits_with_negatives | ].
  exact (shifted_idempotent (Ints with_negatives) shift_fits_with_negatives).
Defined.

Lemma nan_threshold_drops_everything_witness :
  PrimFloat.is_nan (threshold (Floats [5%float]) (shifted (Floats [5%float]))) = true
  /\ Series.to_float64 (trimmed (Floats [5%float])) = []
  /\ Series.length (trimmed (Floats [5%float])) = 0%nat.
Proof.
  split; [now vm_compute | ].
  apply (nan_threshold_drops_everything (Floats [5%float])). now vm_compute.
Defined.

Lemma constant_series_all_or_nothing_witness :
  Forall (fun v => v = tenth) (Series.to_float64 (shifted (Floats tenths)))
  /\ PrimFloat.eqb (py_round (pd_std (Series.to_float64 (Floats tenths))) 3) 0 = true
  /\ PrimFloat.ltb tenth (pd_mean (Series.to_float64 (shifted (Floats tenths)))) = true
  /\ Series.to_float64 (trimmed (Floats tenths)) = tenths.
Proof.
  assert (Hc : Forall (fun v => v = tenth) (Series.to_float64 (shifted (Floats tenths))))
    by (repeat constructor).
  assert (Hstd : PrimFloat.eqb (py_round (pd_std (Series.to_float64 (Floats tenths))) 3) 0
                 = true) by now vm_compute.
  destruct (constant_series_all_or_nothing (Floats tenths) tenth Hc) as [_ Hmean].
  split; [exact Hc | ]. split; [exact Hstd | ]. split; [now vm_compute | ].
  rewrite (Hmean Hstd). now vm_compute.
Defined.

(** The two outcomes on a target of zero variance: the mean of three times
    [0.1] is the float after [0.1], and all three values are kept; the mean
    of three times [5] is [5], and no value is kept. *)
Example constant_series_kept_or_dropped :
  pd_mean tenths = 0x1.999999999999bp-4%float
  /\ trimmed (Floats tenths) = Floats tenths
  /\ pd_mean (map Int64.to_float constant) = 5%float
  /\ trimmed (Ints constant) = Ints [].
Proof. repeat split; now vm_compute. Qed.

End MoreRuns.

Section EstimatorRuns.

Import Estimator Components.

#[local] Existing Instance echo_libraries.

Lemma random_state_stops_at_the_model_witness :
  exists c log',
    construct (New_RandomForestClassifier (PyInt 100) None None (Some (PyInt 42))) []
      = (Return c, log')
    /\ Estimator.random_state (base c) = 0
    /\ needs_fitting (base c) = false
    /\ attributes c !! "random_state" = Some (PyInt 42)
    /\ exists cls kw,
         log' = [] ++ [Construct cls kw]
         /\ kw !! "random_state" = Some (PyInt 42).
Proof.
  eexists _, _. split; [reflexivity | ].
  eapply (random_state_stops_at_the_model
            (New_RandomForestClassifier (PyInt 100) None None (Some (PyInt 42))) []).
  reflexivity.
Defined.

Lemma constructed_estimator_delegates_witness :
  exists c log',
    construct (New_LinearRegressor None) [] = (Return c, log')
    /\ exists cls kw obj,
         log' = [] ++ [Construct cls kw]
         /\ instantiate cls kw = Return obj
         /\ forall (X y other_objectives : PyObj) (l : list Estimator.Call),
              predict (base c) X l
                = (outcome_map (fun _ => PyNone) (obj_predict obj X), l ++ [Call_predict X])
              /\ predict_proba (base c) X l
                = (outcome_map (fun _ => PyNone) (obj_predict_proba obj X),
                   l ++ [Call_predict_proba X])
              /\ score (base c) X y other_objectives l
                = (outcome_map (fun _ => PyNone) (obj_score obj X y), l ++ [Call_score X y]).
Proof.
  eexists _, _. split; [reflexivity | ].
  eapply (constructed_estimator_delegates (New_LinearRegressor None) []).
  reflexivity.
Defined.

End EstimatorRuns.

(** ** Error codes and NaN p-values *)

Section Diagnostics.

Import TargetDistributionDataCheck.

Context `{Collaborators}.

Implicit Types (self : TargetDistributionDataCheck.t) (X y : PyObj) (log : list Call).

(** X13. The code of a returned error tells what was wrong, and only
    that: [TARGET_IS_NONE] exactly for a [None] target;
    [TARGET_UNSUPPORTED_PROBLEM_TYPE] exactly for a target that is not
    [None] under an unsupported problem type; [TARGET_UNSUPPORTED_TYPE]
    exactly for a target that is not [None], under a supported problem
    type, whose inferred type is not numeric. *)
Theorem validate_error_codes self X y log (res : Results) log' (e : MessageDict) :
  validate self X y log = (Return res, log') ->
  e ∈ errors res ->
  (code e = TARGET_IS_NONE <-> y = PyNone)
  /\ (code e = TARGET_UNSUPPORTED_PROBLEM_TYPE
      <-> y <> PyNone /\ ~ supported (problem_type self))
  /\ (code e = TARGET_UNSUPPORTED_TYPE
      <-> y <> PyNone /\ supported (problem_type self)
          /\ exists wy, infer_feature_types y = Return wy /\ numeric wy = None).
Proof.
  intros Hrun He.
  destruct (is_None y) eqn:Hy.
  { assert (y = PyNone) as -> by (destruct y; simpl in Hy; congruence).
    unfold validate in Hrun. simpl in Hrun. injection Hrun as <- _.
    apply list_elem_of_singleton in He as ->. simpl.
    repeat split; try tauto; try discriminate; try (intros [Hne _]; congruence). }
  assert (Hne : y <> PyNone) by (intros ->; discriminate).
  destruct (bool_decide (problem_type self ∈ [REGRESSION; TIME_SERIES_REGRESSION])) eqn:Hp.
  2:{ assert (Hns : ~ supported (problem_type self)).
      { intros Hs. apply supported_decide in Hs. congruence. }
      unfold validate in Hrun. rewrite Hy, Hp in Hrun. simpl in Hrun.
      injection Hrun as <- _. apply list_elem_of_singleton in He as ->. simpl.
      repeat split; try tauto; try discriminate; try congruence;
        try (intros (_ & Hs & _); contradiction). }
  apply supported_decide in Hp.
  destruct (infer_feature_types y) as [wy | e0] eqn:Hi.
  2:{ rewrite (validate_infer_raises self X y log e0 Hy Hp Hi) in Hrun. discriminate. }
  rewrite (validate_inferred self X y log wy Hy Hp Hi) in Hrun.
  destruct (bool_decide (type_string wy ∈ _)) eqn:Hts; cbn [negb] in Hrun; cbv iota in Hrun.
  - destruct (type_string_numeric wy Hts) as [n Hn]. rewrite Hn in Hrun.
    apply analyse_errors in Hrun. rewrite Hrun in He. simpl in He.
    now apply elem_of_nil in He.
  - injection Hrun as <- _. apply list_elem_of_singleton in He as ->. simpl.
    assert (Hnum : numeric wy = None).
    { destruct (numeric wy) as [n | ] eqn:Hn; [ | reflexivity].
      rewrite (numeric_type_string wy n Hn) in Hts. discriminate. }
    repeat split; try tauto; try discriminate; try congruence;
      try (intros [_ Hns]; contradiction); eauto.
Qed.

Lemma leb_nan_r (x p : float) : PrimFloat.is_nan p = true -> PrimFloat.leb x p = false.
Proof.
  intros Hp. rewrite leb_spec. unfold Prim2SF at 2. rewrite Hp.
  unfold SFleb. now destruct (Prim2SF x).
Qed.

Lemma leb_nan_l (p x : float) : PrimFloat.is_nan p = true -> PrimFloat.leb p x = false.
Proof.
  intros Hp. rewrite leb_spec. unfold Prim2SF at 1. rewrite Hp. reflexivity.
Qed.

(** X14. A p-value that is NaN never counts as a pass.  When the raw
    p-value is NaN, [validate] does not return early: it goes on to the
    test on the trimmed series.  When the p-value of the trimmed series or
    of its logarithm is NaN, the target is not flagged: the result is
    empty. *)
Theorem validate_nan_pvalues self X y log (wy : WwSeries) (n : Numeric) (r : ShapiroResult) :
  y <> PyNone ->
  supported (problem_type self) ->
  infer_feature_types y = Return wy ->
  numeric wy = Some n ->
  shapiro (Series.to_float64 n) = Return r ->
  (PrimFloat.is_nan (pvalue r) = true ->
   exists rest,
     snd (validate self X y log)
     = log ++ [Call_infer_feature_types y;
               Call_shapiro (Series.to_float64 n);
               Call_shapiro (Series.to_float64 (trimmed n))] ++ rest)
  /\ (forall og lg,
        PrimFloat.leb alpha (pvalue r) = false ->
        shapiro (Series.to_float64 (trimmed n)) = Return og ->
        shapiro (map np_log (Series.to_float64 (trimmed n))) = Return lg ->
        PrimFloat.is_nan (pvalue og) = true \/ PrimFloat.is_nan (pvalue lg) = true ->
        validate self X y log
        = (Return {| warnings := []; errors := []; actions := [] |},
           log ++ analysis_calls y n)).
Proof.
  intros Hy Hp Hi Hn Hr.
  assert (Hnone : is_None y = false) by (destruct y; simpl; congruence).
  split.
  - intros Hnan.
    apply (validate_tests_trimmed self X y log wy n r Hnone Hp Hi Hn Hr).
    now apply leb_nan_r.
  - intros og lg Hle Hog Hlg Hnan.
    rewrite (validate_analysed self X y log wy n r og lg Hnone Hp Hi Hn Hr Hle Hog Hlg).
    destruct Hnan as [Hnan | Hnan].
    + now rewrite (leb_nan_l (pvalue og) (pvalue lg) Hnan).
    + now rewrite (leb_nan_r (pvalue og) (pvalue lg) Hnan).
Qed.

End Diagnostics.

Section DiagnosticRuns.

Import TargetDistributionDataCheck Examples.

#[local] Existing Instance Reference.collaborators.

Lemma validate_error_codes_witness :
  exists res log' e,
    validate binary_check PyNone (PySeries (StrCol labels)) [] = (Return res, log')
    /\ e ∈ errors res
    /\ (code e = TARGET_IS_NONE <-> PySeries (StrCol labels) = PyNone)
    /\ (code e = TARGET_UNSUPPORTED_PROBLEM_TYPE
        <-> PySeries (StrCol labels) <> PyNone /\ ~ supported (problem_type binary_check))
    /\ (code e = TARGET_UNSUPPORTED_TYPE
        <-> PySeries (StrCol labels) <> PyNone /\ supported (problem_type binary_check)
            /\ exists wy, infer_feature_types (PySeries (StrCol labels)) = Return wy
                          /\ numeric wy = None).
Proof.
  eexists _, _, _. split; [reflexivity | ]. split; [apply elem_of_cons; left; reflexivity | ].
  eapply (validate_error_codes binary_check PyNone (PySeries (StrCol labels)) []);
    [reflexivity | apply elem_of_cons; left; reflexivity].
Defined.

Lemma validate_nan_pvalues_witness :
  PySeries (FloatCol with_nan) <> PyNone
  /\ supported (problem_type regression_check)
  /\ infer_feature_types (PySeries (FloatCol with_nan)) = Return (WwDouble with_nan)
  /\ numeric (WwDouble with_nan) = Some (Floats with_nan)
  /\ shapiro (Series.to_float64 (Floats with_nan)) = Return (tested with_nan)
  /\ PrimFloat.is_nan (pvalue (tested with_nan)) = true
  /\ exists rest,
       snd (validate regression_check PyNone (PySeries (FloatCol with_nan)) [])
       = [] ++ [Call_infer_feature_types (PySeries (FloatCol with_nan));
                Call_shapiro (Series.to_float64 (Floats with_nan));
                Call_shapiro (Series.to_float64 (trimmed (Floats with_nan)))] ++ rest.
Proof.
  split; [discriminate | ]. split; [now left | ].
  split; [reflexivity | ]. split; [reflexivity | ].
  split; [now vm_compute | ]. split; [now vm_compute | ].
  destruct (validate_nan_pvalues regression_check PyNone (PySeries (FloatCol with_nan)) []
              (WwDouble with_nan) (Floats with_nan) (tested with_nan)) as [Hgo _];
    [discriminate | now left | reflexivity | reflexivity | now vm_compute | ].
  apply Hgo. now vm_compute.
Defined.

End DiagnosticRuns.
